(** * Odm25dMeshing: the 2.5D meshing pipeline of [odm_25dmeshing]

    A shallow embedding of the member functions of [Odm25dMeshing]: [run],
    [parseArguments], [printHelp], [loadPointCloud] and [buildMesh]
    (src/modules/odm_25dmeshing/src/Odm25dMeshing.cpp, the VTK based
    implementation) and the properties of the pipeline that the source
    itself decides.

    Conventions.
    - A [double] or [float] is modelled by the rational number it denotes
      ([Q], compared with [==]); rounding of the floating-point operations
      is not modelled, and a quotient of [Q] by 0 is 0 where the source has
      no number.  The sizes of the raster, which the source obtains with
      [ceil] from a computed product, are the ones of the model when
      [raster_is_exact] holds; a statement about a quotient is made for a
      divisor that is not 0.
    - [unsigned int] is a 32-bit integer in [Z] with its wrap-around written
      out; [int] values are in [Z], and [raster_is_exact] bounds the ones the
      source computes from the sizes of the raster, so that none overflows.
    - A VTK object is a record of the values the source hands to its setters.
      What a filter computes from them is part of the library, not of this
      repository: the filters are the fields of [Vtk.Library], and every
      statement below holds for every library. *)

From Stdlib Require Import ZArith QArith Qround Qminmax Qfield List String Bool Lia Lqa.
Import ListNotations.

Local Open Scope Z_scope.

(** ** Numbers *)

Module Double.

(** [ceil] of <cmath>: the least integral value not below [x]. *)
Definition ceil (x : Q) : Q := inject_Z (Qceiling x).

(** The implicit conversion [double -> int]: the fractional part is
    discarded (truncation toward zero). *)
Definition to_int (x : Q) : Z :=
  if Qle_bool 0 x then Qfloor x else Qceiling x.

(** Rounding to the nearest integer, halves away from zero ([round] of
    <cmath>); used only to state what "rounded" means. *)
Definition round (x : Q) : Z :=
  if Qle_bool 0 x then Qfloor (x + (1 # 2))%Q else Qceiling (x - (1 # 2))%Q.

(** [x] is a value of the type [double] (binary64): [m * 2^e] with a
    significand [m] of at most 53 bits and an exponent [e] from -1074 to 971.
    An operation of the source whose exact result is such a value is not
    rounded. *)
Definition representable (x : Q) : Prop :=
  exists m e : Z,
    Z.abs m < 2 ^ 53 /\ -1074 <= e <= 971 /\ (x == inject_Z m * Qpower 2 e)%Q.

End Double.

Module Int32.

(** The largest value of the type [int]. *)
Definition INT_MAX : Z := 2 ^ 31 - 1.

End Int32.

Module UInt.

Definition bits : Z := 32.
Definition modulus : Z := 2 ^ bits.

Definition wrap (z : Z) : Z := z mod modulus.
Definition mul (a b : Z) : Z := wrap (a * b).
Definition max (a b : Z) : Z := Z.max (wrap a) (wrap b).
Definition min (a b : Z) : Z := Z.min (wrap a) (wrap b).

Definition in_range (z : Z) : Prop := 0 <= z < modulus.

End UInt.

(** ** Geometry and the VTK objects used by the pipeline *)

Record Point3 : Type := mkPoint3 { px : Q; py : Q; pz : Q }.

(** Equality of points, coordinate by coordinate. *)
Definition Peq (p q : Point3) : Prop :=
  px p == px q /\ py p == py q /\ pz p == pz q.

Module Vtk.

(** [vtkPolyData]: points, the point scalars ("elevation") and the cells,
    each cell a list of point ids. *)
Record vtkPolyData : Type := mkPolyData {
  Points : list Point3;
  Scalars : list Q;
  Cells : list (list nat)
}.

(** [vtkImageData] with one scalar component; the scalars are stored with
    the first index running fastest. *)
Record vtkImageData : Type := mkImageData {
  Dimensions : Z * Z * Z;
  ImageScalars : list Q
}.

(** The six numbers of [GetBounds()]: xmin, xmax, ymin, ymax, zmin, zmax. *)
Record Bounds : Type := mkBounds {
  b0 : Q; b1 : Q; b2 : Q; b3 : Q; b4 : Q; b5 : Q
}.

(** [vtkDataSet::GetCenter()]: the midpoint of the bounds. *)
Definition GetCenter (b : Bounds) : Point3 :=
  mkPoint3 ((b0 b + b1 b) / 2) ((b2 b + b3 b) / 2) ((b4 b + b5 b) / 2).

Record vtkStaticPointLocator : Type := mkLocator {
  DataSet : vtkPolyData
}.

Record vtkStatisticalOutlierRemoval : Type := mkOutlierRemoval {
  RemovalLocator : vtkStaticPointLocator;
  SampleSize : Z;
  StandardDeviationFactor : Q;
  GenerateOutliers : bool
}.

Record vtkPlaneSource : Type := mkPlaneSource {
  XResolution : Z;
  YResolution : Z;
  Origin : Point3;
  Point1 : Point3;
  Point2 : Point3;
  Center : Point3;
  Normal : Point3
}.

Inductive KernelFootprint : Type := RADIUS | N_CLOSEST.

Record vtkShepardKernel : Type := mkShepardKernel {
  PowerParameter : Q;
  Footprint : KernelFootprint;
  NumberOfPoints : Z
}.

Record vtkPointInterpolator : Type := mkPointInterpolator {
  SourceData : vtkPolyData;
  Kernel : vtkShepardKernel;
  InterpolatorLocator : vtkStaticPointLocator;
  NullValue : Q
}.

Record vtkImageAnisotropicDiffusion2D : Type := mkDiffusion {
  Faces : bool;
  Edges : bool;
  Corners : bool;
  DiffusionFactor : Q;
  GradientMagnitudeThreshold : bool;
  DiffusionThreshold : Q;
  NumberOfIterations : Z
}.

Inductive ErrorMeasureType : Type :=
| NUMBER_OF_TRIANGLES | SPECIFIED_REDUCTION | ABSOLUTE_ERROR | RELATIVE_ERROR.

Record vtkGreedyTerrainDecimation : Type := mkTerrain {
  ErrorMeasure : ErrorMeasureType;
  NumberOfTriangles : Z;
  BoundaryVertexDeletion : bool
}.

(** *** [vtkTransform]

    A 4x4 matrix and the concatenation mode.  A new transform is the
    identity in PreMultiply mode: an operation [A] replaces the current
    matrix [M] by [M * A], so the operation requested last is the first to
    act on a point.  In PostMultiply mode [M] becomes [A * M]. *)

Definition Vec4 : Type := (Q * Q * Q * Q)%type.
Definition Matrix4x4 : Type := (Vec4 * Vec4 * Vec4 * Vec4)%type.

Definition Identity : Matrix4x4 :=
  ((1, 0, 0, 0), (0, 1, 0, 0), (0, 0, 1, 0), (0, 0, 0, 1))%Q.

Definition dot (u v : Vec4) : Q :=
  let '(u0, u1, u2, u3) := u in
  let '(v0, v1, v2, v3) := v in
  (u0 * v0 + u1 * v1 + u2 * v2 + u3 * v3)%Q.

Definition column (m : Matrix4x4) (j : nat) : Vec4 :=
  let pick (r : Vec4) : Q :=
    let '(r0, r1, r2, r3) := r in
    match j with O => r0 | 1%nat => r1 | 2%nat => r2 | _ => r3 end in
  let '(r0, r1, r2, r3) := m in
  (pick r0, pick r1, pick r2, pick r3).

Definition Multiply4x4 (a b : Matrix4x4) : Matrix4x4 :=
  let row (r : Vec4) : Vec4 :=
    (dot r (column b 0), dot r (column b 1),
     dot r (column b 2), dot r (column b 3)) in
  let '(a0, a1, a2, a3) := a in
  (row a0, row a1, row a2, row a3).

Record vtkTransform : Type := mkTransform {
  Matrix : Matrix4x4;
  PreMultiplyFlag : bool
}.

Definition vtkTransform_New : vtkTransform := mkTransform Identity true.

Definition Concatenate (t : vtkTransform) (a : Matrix4x4) : vtkTransform :=
  if PreMultiplyFlag t
  then mkTransform (Multiply4x4 (Matrix t) a) true
  else mkTransform (Multiply4x4 a (Matrix t)) false.

Definition Translate (t : vtkTransform) (x y z : Q) : vtkTransform :=
  Concatenate t ((1, 0, 0, x), (0, 1, 0, y), (0, 0, 1, z), (0, 0, 0, 1))%Q.

Definition Scale (t : vtkTransform) (x y z : Q) : vtkTransform :=
  Concatenate t ((x, 0, 0, 0), (0, y, 0, 0), (0, 0, z, 0), (0, 0, 0, 1))%Q.

(** [vtkLinearTransform::TransformPoint]: the first three rows applied to
    [(x, y, z, 1)]. *)
Definition TransformPoint (t : vtkTransform) (p : Point3) : Point3 :=
  let '(r0, r1, r2, _) := Matrix t in
  let v : Vec4 := (px p, py p, pz p, 1%Q) in
  mkPoint3 (dot r0 v) (dot r1 v) (dot r2 v).

(** [vtkTransformFilter]: every point goes through the transform; scalars
    and cells are passed on. *)
Definition TransformFilter (t : vtkTransform) (input : vtkPolyData) : vtkPolyData :=
  mkPolyData (map (TransformPoint t) (Points input)) (Scalars input) (Cells input).

(** *** The library

    The filters whose algorithms live in VTK.  [Update()] of a filter is a
    function of the filter's settings and its input; the calls return
    normally (VTK reports problems on its own error channel, not by C++
    exceptions). *)
Record Library : Type := mkLibrary {
  GetBounds : vtkPolyData -> Bounds;
  StatisticalOutlierRemoval :
    vtkStatisticalOutlierRemoval -> vtkPolyData -> vtkPolyData;
  NumberOfPointsRemoved :
    vtkStatisticalOutlierRemoval -> vtkPolyData -> Z;
  PlaneSource : vtkPlaneSource -> vtkPolyData;
  PointInterpolator :
    vtkPointInterpolator -> vtkPolyData -> vtkPolyData;
  ImageAnisotropicDiffusion2D :
    vtkImageAnisotropicDiffusion2D -> vtkImageData -> vtkImageData;
  GreedyTerrainDecimation :
    vtkGreedyTerrainDecimation -> vtkImageData -> vtkPolyData
}.

End Vtk.
Import Vtk.

(** ** The [Odm25dMeshing] object *)

Record Odm25dMeshing : Type := mkOdm25dMeshing {
  inputFile : string;
  outputFile : string;
  outputDsmFile : string;
  logFilePath : string;
  maxVertexCount : Z;
  resolution : Q;
  shepardNeighbors : Z;
  showDebugWindow : bool;
  points : list Point3
}.

Definition set_inputFile (v : string) (o : Odm25dMeshing) : Odm25dMeshing :=
  mkOdm25dMeshing v (outputFile o) (outputDsmFile o) (logFilePath o)
    (maxVertexCount o) (resolution o) (shepardNeighbors o) (showDebugWindow o) (points o).
Definition set_outputFile (v : string) (o : Odm25dMeshing) : Odm25dMeshing :=
  mkOdm25dMeshing (inputFile o) v (outputDsmFile o) (logFilePath o)
    (maxVertexCount o) (resolution o) (shepardNeighbors o) (showDebugWindow o) (points o).
Definition set_outputDsmFile (v : string) (o : Odm25dMeshing) : Odm25dMeshing :=
  mkOdm25dMeshing (inputFile o) (outputFile o) v (logFilePath o)
    (maxVertexCount o) (resolution o) (shepardNeighbors o) (showDebugWindow o) (points o).
Definition set_logFilePath (v : string) (o : Odm25dMeshing) : Odm25dMeshing :=
  mkOdm25dMeshing (inputFile o) (outputFile o) (outputDsmFile o) v
    (maxVertexCount o) (resolution o) (shepardNeighbors o) (showDebugWindow o) (points o).
Definition set_maxVertexCount (v : Z) (o : Odm25dMeshing) : Odm25dMeshing :=
  mkOdm25dMeshing (inputFile o) (outputFile o) (outputDsmFile o) (logFilePath o)
    v (resolution o) (shepardNeighbors o) (showDebugWindow o) (points o).
Definition set_resolution (v : Q) (o : Odm25dMeshing) : Odm25dMeshing :=
  mkOdm25dMeshing (inputFile o) (outputFile o) (outputDsmFile o) (logFilePath o)
    (maxVertexCount o) v (shepardNeighbors o) (showDebugWindow o) (points o).
Definition set_shepardNeighbors (v : Z) (o : Odm25dMeshing) : Odm25dMeshing :=
  mkOdm25dMeshing (inputFile o) (outputFile o) (outputDsmFile o) (logFilePath o)
    (maxVertexCount o) (resolution o) v (showDebugWindow o) (points o).
Definition set_showDebugWindow (v : bool) (o : Odm25dMeshing) : Odm25dMeshing :=
  mkOdm25dMeshing (inputFile o) (outputFile o) (outputDsmFile o) (logFilePath o)
    (maxVertexCount o) (resolution o) (shepardNeighbors o) v (points o).
Definition set_points (v : list Point3) (o : Odm25dMeshing) : Odm25dMeshing :=
  mkOdm25dMeshing (inputFile o) (outputFile o) (outputDsmFile o) (logFilePath o)
    (maxVertexCount o) (resolution o) (shepardNeighbors o) (showDebugWindow o) v.

(** ** Effects: the object, the logger, library runs and written files *)

Inductive Event : Type :=
| LogStr (s : string)
| LogInt (z : Z)
| LogDouble (q : Q)
| LogPrintToFile (path : string)
| OfstreamOpen (fileName : string) (is_open : bool)
| EnableSMP (enable : bool)
| OutlierRemovalUpdate (f : vtkStatisticalOutlierRemoval) (input : vtkPolyData)
| PointInterpolatorUpdate (f : vtkPointInterpolator) (input : vtkPolyData)
| DiffusionUpdate (f : vtkImageAnisotropicDiffusion2D) (input : vtkImageData)
| TerrainUpdate (f : vtkGreedyTerrainDecimation) (input : vtkImageData)
| TIFFWrite (fileName : string) (input : vtkImageData)
| PLYWrite (fileName : string) (input : vtkPolyData).

Inductive exn : Type :=
| Odm25dMeshingException (what : string)
| std_exception (what : string).

Definition what (e : exn) : string :=
  match e with
  | Odm25dMeshingException w => w
  | std_exception w => w
  end.

(** How a call ends: it returns, it throws, or the process exits. *)
Inductive outcome (A : Type) : Type :=
| Return (a : A)
| Throw (e : exn)
| Exit (code : Z).
Arguments Return {A} a.
Arguments Throw {A} e.
Arguments Exit {A} code.

(** The state every member function threads: the object's fields, the
    logger's flag and everything that happened so far, oldest first. *)
Record World : Type := mkWorld {
  self : Odm25dMeshing;
  isPrintingInCout : bool;
  events : list Event
}.

Definition M (A : Type) : Type := World -> World * outcome A.

Definition ret {A} (a : A) : M A := fun w => (w, Return a).

Definition bind {A B} (m : M A) (f : A -> M B) : M B :=
  fun w =>
    match m w with
    | (w', Return a) => f a w'
    | (w', Throw e) => (w', Throw e)
    | (w', Exit c) => (w', Exit c)
    end.

Declare Scope pipeline_scope.
Delimit Scope pipeline_scope with pipeline.
Notation "x <- c1 ;; c2" := (bind c1 (fun x => c2))
  (at level 61, c1 at next level, right associativity) : pipeline_scope.
Notation "c1 ;; c2" := (bind c1 (fun _ => c2))
  (at level 61, right associativity) : pipeline_scope.

Definition emit (e : Event) : M unit :=
  fun w => (mkWorld (self w) (isPrintingInCout w) (events w ++ [e]), Return tt).

Definition throw {A} (e : exn) : M A := fun w => (w, Throw e).
Definition exit {A} (code : Z) : M A := fun w => (w, Exit code).

(** [try { body } catch (...) { handler }]: an exit is not caught. *)
Definition try_catch {A} (body : M A) (handler : exn -> M A) : M A :=
  fun w =>
    match body w with
    | (w', Throw e) => handler e w'
    | r => r
    end.

Definition this : M Odm25dMeshing := fun w => (w, Return (self w)).

Definition assign (f : Odm25dMeshing -> Odm25dMeshing) : M unit :=
  fun w => (mkWorld (f (self w)) (isPrintingInCout w) (events w), Return tt).

Definition setIsPrintingInCout (b : bool) : M unit :=
  fun w => (mkWorld (self w) b (events w), Return tt).

Definition getIsPrintingInCout : M bool :=
  fun w => (w, Return (isPrintingInCout w)).

Definition log (s : string) : M unit := emit (LogStr s).
Definition log_int (z : Z) : M unit := emit (LogInt z).
Definition log_double (q : Q) : M unit := emit (LogDouble q).
Definition printToFile (path : string) : M unit := emit (LogPrintToFile path).

Definition nl : string := String (Ascii.ascii_of_nat 10) EmptyString.
Definition tab : string := String (Ascii.ascii_of_nat 9) EmptyString.

(** A run of a member function on an object, with a silent logger and an
    empty history. *)
Definition start (o : Odm25dMeshing) : World := mkWorld o false [].
Definition trace {A} (m : M A) (o : Odm25dMeshing) : list Event :=
  events (fst (m (start o))).
Definition result {A} (m : M A) (o : Odm25dMeshing) : outcome A :=
  snd (m (start o)).

(** [std::ofstream testFile(fileName)]: the stream is opened for writing,
    which creates the file, or empties it when it exists, if it can be
    opened at all; [is_open] tells whether it could. *)
Definition ofstream (fileName : string) (is_open : bool) : M bool :=
  fun w =>
    (mkWorld (self w) (isPrintingInCout w)
       (events w ++ [OfstreamOpen fileName is_open]), Return is_open).

(** What the program asks of its surroundings: the number [stringstream >>]
    stores when it reads an argument ([None] when it stores nothing and the
    variable keeps its value), the stream's bad bit, whether a file can be
    opened for reading or for writing, and a call of [loadPointCloud] that
    ends, by returning with the points stored in the object or by throwing.
    The loader itself is [Pcl.loadPointCloud] below, which may not end. *)
Record Environment : Type := mkEnvironment {
  read_unsigned : string -> option Z;
  read_double : string -> option Q;
  stream_bad : string -> bool;
  ifstream_is_open : string -> bool;
  ofstream_is_open : string -> bool;
  loadPointCloud : M unit
}.

(** ** Small helpers of the embedding *)

(** The values [0, 1, ..., n-1] of a loop counter [for (int i = 0; i < n; i++)]. *)
Definition range (n : Z) : list Z := map Z.of_nat (seq 0 (Z.to_nat n)).

Fixpoint set_nth (l : list Q) (k : nat) (v : Q) : list Q :=
  match l, k with
  | [], _ => []
  | _ :: t, O => v :: t
  | h :: t, S k' => h :: set_nth t k' v
  end.

(** [GetCell(cellId)->GetPointId(k)] *)
Definition GetCellPointId (poly : vtkPolyData) (cellId : Z) (k : nat) : nat :=
  nth k (nth (Z.to_nat cellId) (Cells poly) []) 0%nat.

(** [array->GetValue(id)] *)
Definition GetValue (array : list Q) (id : nat) : Q := nth id array 0%Q.

(** [image->AllocateScalars(VTK_FLOAT, 1)]; the fresh scalars are given the
    value 0 here. *)
Definition AllocateScalars (dims : Z * Z * Z) : vtkImageData :=
  let '(w, h, d) := dims in
  mkImageData dims (repeat 0%Q (Z.to_nat (w * h * d))).

(** [*image->GetScalarPointer(i, j, 0) = v] *)
Definition SetScalar (image : vtkImageData) (i j : Z) (v : Q) : vtkImageData :=
  let '(w, _, _) := Dimensions image in
  mkImageData (Dimensions image)
    (set_nth (ImageScalars image) (Z.to_nat (j * w + i)) v).

(** ** [Odm25dMeshing::parseArguments]: the numeric options *)

(** [-maxVertexCount]: [std::max<unsigned int>(maxVertexCount, 0)] *)
Definition clamp_maxVertexCount (v : Z) : Z := UInt.max v 0.

(** [-resolution]: [std::min<double>(100000, std::max<double>(resolution, 0.00001))] *)
Definition clamp_resolution (v : Q) : Q := Qmin 100000 (Qmax v (1 # 100000)).

(** [-shepardNeighbors]:
    [std::min<unsigned int>(1000, std::max<unsigned int>(shepardNeighbors, 1))] *)
Definition clamp_shepardNeighbors (v : Z) : Z := UInt.min 1000 (UInt.max v 1).

(** ** [Odm25dMeshing::buildMesh]: the stages

    Each definition is the local variable of the same name in [buildMesh],
    as a function of the object the member function runs on. *)

Section Stages.

Variable vtk : Library.
Variable o : Odm25dMeshing.

Definition polyPoints : vtkPolyData := mkPolyData (points o) [] [].

Definition pointsLocator : vtkStaticPointLocator := mkLocator polyPoints.

Definition removal : vtkStatisticalOutlierRemoval :=
  mkOutlierRemoval pointsLocator 24 (15 # 10) false.

(** [removal->GetOutput()->GetPoints()] *)
Definition cleanedPoints : list Point3 :=
  Points (StatisticalOutlierRemoval vtk removal polyPoints).

(** The loop over [cleanedPoints]: the third coordinate of every point is
    appended to [elevation] and replaced by 0 in the point.  The loop moves
    the three coordinates through the local array [p], which the source
    declares with two elements, and [elevation] is an array of [float]: the
    definitions give what the loop is written to do, with the elevations as
    the numbers they are before the narrowing. *)
Definition elevation : list Q := map pz cleanedPoints.

Definition squashedPoints : list Point3 :=
  map (fun p => mkPoint3 (px p) (py p) 0) cleanedPoints.

Definition polydataToProcess : vtkPolyData :=
  mkPolyData squashedPoints elevation [].

Definition NODATA : Q := -9999.

Definition bounds : Bounds := GetBounds vtk polydataToProcess.
Definition center : Point3 := GetCenter bounds.

Definition extentX : Q := b1 bounds - b0 bounds.
Definition extentY : Q := b3 bounds - b2 bounds.

(** [int width = ceil(extentX * resolution)], and the same for [height]:
    the value for a product that is not rounded and whose [ceil] is an [int]
    (see [raster_is_exact]). *)
Definition width : Z := Double.to_int (Double.ceil (extentX * resolution o)).
Definition height : Z := Double.to_int (Double.ceil (extentY * resolution o)).

Definition plane : vtkPlaneSource :=
  mkPlaneSource width height
    (mkPoint3 0 0 0) (mkPoint3 extentX 0 0) (mkPoint3 0 extentY 0)
    center (mkPoint3 0 0 1).

Definition locator : vtkStaticPointLocator := mkLocator polydataToProcess.

Definition shepardKernel : vtkShepardKernel :=
  mkShepardKernel 2 N_CLOSEST (shepardNeighbors o).

Definition interpolator : vtkPointInterpolator :=
  mkPointInterpolator polydataToProcess shepardKernel locator NODATA.

Definition interpolatedPoly : vtkPolyData :=
  PointInterpolator vtk interpolator (PlaneSource vtk plane).

Definition interpolatedElevation : list Q := Scalars interpolatedPoly.

(** The two nested loops that copy the interpolated elevations into the
    image, [i] over the width outside and [j] over the height inside.  The
    cell index [j * width + i] is the one the source computes as long as it
    is an [int]. *)
Definition image : vtkImageData :=
  fold_left
    (fun img i =>
       fold_left
         (fun img j =>
            let cellId := GetCellPointId interpolatedPoly (j * width + i) 0 in
            SetScalar img i j (GetValue interpolatedElevation cellId))
         (range height) img)
    (range width) (AllocateScalars (width, height, 1)).

Definition surfaceDiffusion : vtkImageAnisotropicDiffusion2D :=
  mkDiffusion true true true 1 true (2 # 10)
    (Double.to_int (resolution o / 2)).

Definition smoothed : vtkImageData :=
  ImageAnisotropicDiffusion2D vtk surfaceDiffusion image.

Definition terrain : vtkGreedyTerrainDecimation :=
  mkTerrain NUMBER_OF_TRIANGLES (UInt.mul (maxVertexCount o) 2) true.

Definition decimated : vtkPolyData :=
  GreedyTerrainDecimation vtk terrain smoothed.

(** The scale factors are the quotients of the source when [width] and
    [height] are not 0. *)
Definition transform : vtkTransform :=
  let transform := vtkTransform_New in
  let transform :=
    Translate transform (- extentX / 2 + px center) (- extentY / 2 + py center) 0 in
  Scale transform (extentX / inject_Z width) (extentY / inject_Z height) 1.

(** [transformFilter->GetOutputPort()] once the writer pulls it. *)
Definition transformFilter : vtkPolyData := TransformFilter transform decimated.

End Stages.

(** ** The member functions *)

Definition EXIT_SUCCESS : Z := 0.
Definition EXIT_FAILURE : Z := 1.

Section Members.

Variable vtk : Library.
Variable env : Environment.

Local Open Scope pipeline_scope.

Definition printHelp : M unit :=
  printInCoutPop <- getIsPrintingInCout ;;
  setIsPrintingInCout true ;;
  o <- this ;;
  log ("Usage: odm_25dmeshing -inputFile [plyFile] [optional-parameters]" ++ nl)%string ;;
  log "Create a 2.5D mesh from a point cloud. " ;;
  log ("The program requires a path to an input PLY point cloud file, all other input parameters are optional."
         ++ nl ++ nl)%string ;;
  log (tab ++ "-inputFile" ++ tab ++ "<path>" ++ tab ++ "to PLY point cloud" ++ nl)%string ;;
  log (tab ++ "-outputFile" ++ tab ++ "<path>" ++ tab
         ++ "where the output PLY 2.5D mesh should be saved (default: ")%string ;;
  log (outputFile o) ;;
  log (")" ++ nl)%string ;;
  log (tab ++ "-outputDsmFile" ++ tab ++ "<path>" ++ tab
         ++ "Optionally output the Digital Surface Model (DSM) computed for generating the mesh. (default: ")%string ;;
  log (outputDsmFile o) ;;
  log (")" ++ nl)%string ;;
  log (tab ++ "-logFile" ++ tab ++ "<path>" ++ tab ++ "log file path (default: ")%string ;;
  log (logFilePath o) ;;
  log (")" ++ nl)%string ;;
  log (tab ++ "-verbose" ++ tab ++ "whether to print verbose output (default: ")%string ;;
  log (if printInCoutPop then "true" else "false") ;;
  log (")" ++ nl)%string ;;
  log (tab ++ "-maxVertexCount" ++ tab ++ "<0 - N>" ++ tab
         ++ "Maximum number of vertices in the output mesh. The mesh might have fewer vertices, but will not exceed this limit. (default: ")%string ;;
  log_int (maxVertexCount o) ;;
  log (")" ++ nl)%string ;;
  log (tab ++ "-shepardNeighbors" ++ tab ++ "<1 - 1000>" ++ tab
         ++ "Number of nearest neighbors to consider when doing shepard's interpolation. Higher values lead to smoother meshes but take longer to process. (default: ")%string ;;
  log_int (shepardNeighbors o) ;;
  log (")" ++ nl)%string ;;
  log (tab ++ "-resolution" ++ tab ++ "<1 - N>" ++ tab
         ++ "Size of the interpolated digital surface model (DSM) used for deriving the 2.5D mesh, expressed in pixels per meter unit. (default: ")%string ;;
  log_double (resolution o) ;;
  log (")" ++ nl)%string ;;
  log nl ;;
  setIsPrintingInCout printInCoutPop.

Definition expects_more (argument : string) : exn :=
  Odm25dMeshingException
    ("Argument '" ++ argument
       ++ "' expects 1 more input following it, but no more inputs were provided.")%string.

Definition bad_value (argument suffix : string) : exn :=
  Odm25dMeshingException ("Argument '" ++ argument ++ "' has a bad value" ++ suffix)%string.

(** [parseArguments], on the arguments after the program name.  The test
    [argIndex < argc] of the options that take a value always holds inside
    the loop. *)
Fixpoint parseArguments (args : list string) : M unit :=
  match args with
  | [] => ret tt
  | argument :: rest =>
    if (argument =? "-help")%string then
      printHelp ;; exit 0
    else if (argument =? "-verbose")%string then
      setIsPrintingInCout true ;; parseArguments rest
    else if (argument =? "-maxVertexCount")%string then
      match rest with
      | [] => throw (expects_more argument)
      | value :: rest' =>
        (match read_unsigned env value with
         | Some v => assign (set_maxVertexCount v)
         | None => ret tt
         end) ;;
        (if stream_bad env value
         then throw (bad_value argument " (wrong type).") else ret tt) ;;
        o <- this ;;
        assign (set_maxVertexCount (clamp_maxVertexCount (maxVertexCount o))) ;;
        o <- this ;;
        log "Vertex count was manually set to: " ;;
        log_int (maxVertexCount o) ;; log nl ;;
        parseArguments rest'
      end
    else if (argument =? "-resolution")%string then
      match rest with
      | [] => throw (expects_more argument)
      | value :: rest' =>
        (match read_double env value with
         | Some v => assign (set_resolution v)
         | None => ret tt
         end) ;;
        (if stream_bad env value
         then throw (bad_value argument " (wrong type).") else ret tt) ;;
        o <- this ;;
        assign (set_resolution (clamp_resolution (resolution o))) ;;
        o <- this ;;
        log "Resolution was manually set to: " ;;
        log_double (resolution o) ;; log nl ;;
        parseArguments rest'
      end
    else if (argument =? "-shepardNeighbors")%string then
      match rest with
      | [] => throw (expects_more argument)
      | value :: rest' =>
        (match read_unsigned env value with
         | Some v => assign (set_shepardNeighbors v)
         | None => ret tt
         end) ;;
        (if stream_bad env value
         then throw (bad_value argument " (wrong type).") else ret tt) ;;
        o <- this ;;
        assign (set_shepardNeighbors (clamp_shepardNeighbors (shepardNeighbors o))) ;;
        o <- this ;;
        log "Shepard neighbors was manually set to: " ;;
        log_int (shepardNeighbors o) ;; log nl ;;
        parseArguments rest'
      end
    else if (argument =? "-inputFile")%string then
      match rest with
      | [] => throw (expects_more argument)
      | value :: rest' =>
        assign (set_inputFile value) ;;
        (if ifstream_is_open env value
         then ret tt else throw (bad_value argument ". (file not accessible)")) ;;
        log "Reading point cloud at: " ;; log value ;; log nl ;;
        parseArguments rest'
      end
    else if (argument =? "-outputFile")%string then
      match rest with
      | [] => throw (expects_more argument)
      | value :: rest' =>
        assign (set_outputFile value) ;;
        testFile <- ofstream value (ofstream_is_open env value) ;;
        (if (testFile : bool)
         then ret tt else throw (bad_value argument ".")) ;;
        log "Writing output to: " ;; log value ;; log nl ;;
        parseArguments rest'
      end
    else if (argument =? "-outputDsmFile")%string then
      match rest with
      | [] => throw (expects_more argument)
      | value :: rest' =>
        assign (set_outputDsmFile value) ;;
        testFile <- ofstream value (ofstream_is_open env value) ;;
        (if (testFile : bool)
         then ret tt else throw (bad_value argument ". (file not accessible)")) ;;
        log "Saving DSM output to: " ;; log value ;; log nl ;;
        parseArguments rest'
      end
    else if (argument =? "-showDebugWindow")%string then
      assign (set_showDebugWindow true) ;; parseArguments rest
    else if (argument =? "-logFile")%string then
      match rest with
      | [] => throw (expects_more argument)
      | value :: rest' =>
        assign (set_logFilePath value) ;;
        o <- this ;;
        testFile <- ofstream (outputFile o) (ofstream_is_open env (outputFile o)) ;;
        (if (testFile : bool)
         then ret tt else throw (bad_value argument ".")) ;;
        log "Writing log information to: " ;; log value ;; log nl ;;
        parseArguments rest'
      end
    else
      printHelp ;;
      throw (Odm25dMeshingException ("Unrecognised argument '" ++ argument ++ "'")%string)
  end.

(** [buildMesh]: the effects of the member function in program order.  The
    values are those of [Section Stages]. *)
Definition buildMesh : M unit :=
  o <- this ;;
  emit (EnableSMP true) ;;
  log "Remove outliers... " ;;
  emit (OutlierRemovalUpdate (removal o) (polyPoints o)) ;;
  log_int (NumberOfPointsRemoved vtk (removal o) (polyPoints o)) ;;
  log (" points removed" ++ nl)%string ;;
  log "Squash point cloud to plane... " ;;
  log ("OK" ++ nl)%string ;;
  log "Plane extentX: " ;; log_double (extentX vtk o) ;;
  log ", extentY: " ;; log_double (extentY vtk o) ;; log nl ;;
  log "DSM size is " ;; log_int (width vtk o) ;; log "x" ;; log_int (height vtk o) ;;
  log " (" ;;
  log_double (Double.ceil (inject_Z (width vtk o * height vtk o * 4) * (1 # 1000000))) ;;
  log (" MB) " ++ nl)%string ;;
  log "Point interpolation using shepard's kernel..." ;;
  emit (PointInterpolatorUpdate (interpolator vtk o) (PlaneSource vtk (plane vtk o))) ;;
  log ("OK" ++ nl)%string ;;
  (if (outputDsmFile o =? EmptyString)%string then ret tt
   else
     log "Saving DSM to file... " ;;
     emit (TIFFWrite (outputDsmFile o) (image vtk o)) ;;
     log ("OK" ++ nl)%string) ;;
  emit (DiffusionUpdate (surfaceDiffusion o) (image vtk o)) ;;
  log "Triangulate... " ;;
  emit (TerrainUpdate (terrain o) (smoothed vtk o)) ;;
  log ("OK" ++ nl ++ "Transform... ")%string ;;
  log ("OK" ++ nl)%string ;;
  log "Saving mesh to file... " ;;
  emit (PLYWrite (outputFile o) (transformFilter vtk o)) ;;
  log ("OK" ++ nl)%string.

(** [run], with [argv] given as the list of the arguments after the
    program name ([argc] is its length plus one).  The call of
    [loadPointCloud] is the one of the surroundings, a call that ends. *)
Definition run (args : list string) : M Z :=
  o <- this ;;
  log (logFilePath o) ;; log nl ;;
  if (Z.of_nat (List.length args) + 1 <=? 1)%Z then
    printHelp ;; ret EXIT_SUCCESS
  else
    caught <-
      try_catch
        (parseArguments args ;; loadPointCloud env ;; buildMesh ;; ret false)
        (fun e =>
           o <- this ;;
           match e with
           | Odm25dMeshingException w =>
             setIsPrintingInCout true ;;
             log w ;; log nl ;;
             printToFile (logFilePath o) ;;
             log "For more detailed information, see log file." ;; log nl ;;
             ret true
           | std_exception w =>
             setIsPrintingInCout true ;;
             log ("Error in OdmMeshing:" ++ nl)%string ;;
             log w ;; log nl ;;
             printToFile (logFilePath o) ;;
             log "For more detailed information, see log file." ;; log nl ;;
             ret true
           end) ;;
    if (caught : bool) then ret EXIT_FAILURE
    else
      o <- this ;;
      printToFile (logFilePath o) ;;
      ret EXIT_SUCCESS.

End Members.

(** ** A small instance of the library and of the surroundings

    Used to evaluate the pipeline on concrete inputs: the bounding box is
    computed, no point is removed as an outlier, the plane is the regular
    grid of its resolution, a grid point takes the elevation of its nearest
    source, the diffusion returns its input and the decimation returns the
    two triangles over the corners of the image. *)

Module Sample.

Definition bounding_box (pts : list Point3) : Bounds :=
  match pts with
  | [] => mkBounds 1 (-1) 1 (-1) 1 (-1)
  | p :: ps =>
    fold_left
      (fun b q =>
         mkBounds (Qmin (b0 b) (px q)) (Qmax (b1 b) (px q))
                  (Qmin (b2 b) (py q)) (Qmax (b3 b) (py q))
                  (Qmin (b4 b) (pz q)) (Qmax (b5 b) (pz q)))
      ps (mkBounds (px p) (px p) (py p) (py p) (pz p) (pz p))
  end.

Definition grid (pl : vtkPlaneSource) : vtkPolyData :=
  let nx := XResolution pl in
  let ny := YResolution pl in
  let ex := (px (Point1 pl) - px (Origin pl))%Q in
  let ey := (py (Point2 pl) - py (Origin pl))%Q in
  let x0 := (px (Center pl) - ex / 2)%Q in
  let y0 := (py (Center pl) - ey / 2)%Q in
  mkPolyData
    (flat_map
       (fun j =>
          map (fun i =>
                 mkPoint3 (x0 + inject_Z i * (ex / inject_Z nx))
                          (y0 + inject_Z j * (ey / inject_Z ny)) 0)
              (range (nx + 1)))
       (range (ny + 1)))
    []
    (flat_map
       (fun j =>
          map (fun i =>
                 let c := Z.to_nat (i + j * (nx + 1)) in
                 [c; c + 1; c + Z.to_nat nx + 2; c + Z.to_nat nx + 1]%nat)
              (range nx))
       (range ny)).

Definition dist2 (p q : Point3) : Q :=
  ((px p - px q) * (px p - px q) + (py p - py q) * (py p - py q))%Q.

Definition nearest (null : Q) (src : vtkPolyData) (p : Point3) : Q :=
  match combine (Points src) (Scalars src) with
  | [] => null
  | s :: rest =>
    snd (fold_left
           (fun best c =>
              if Qle_bool (dist2 p (fst best)) (dist2 p (fst c)) then best else c)
           rest s)
  end.

Definition corners (img : vtkImageData) : vtkPolyData :=
  let '(w, h, _) := Dimensions img in
  let at_ (i j : Z) : Point3 :=
    mkPoint3 (inject_Z i) (inject_Z j)
             (GetValue (ImageScalars img) (Z.to_nat (j * w + i))) in
  mkPolyData
    [at_ 0 0; at_ (w - 1) 0; at_ (w - 1) (h - 1); at_ 0 (h - 1)]
    [] [[0; 1; 2]; [0; 2; 3]]%nat.

Definition vtk : Library :=
  mkLibrary
    (fun poly => bounding_box (Points poly))
    (fun _ poly => poly)
    (fun _ _ => 0)
    grid
    (fun f input =>
       mkPolyData (Points input)
         (map (nearest (NullValue f) (SourceData f)) (Points input))
         (Cells input))
    (fun _ img => img)
    (fun _ img => corners img).

(** An object as the argument parser leaves it. *)
Definition object (pts : list Point3) (res : Q) (budget : Z) (dsm : string)
  : Odm25dMeshing :=
  mkOdm25dMeshing "cloud.ply" "mesh.ply" dsm "log.txt"
    (clamp_maxVertexCount budget) (clamp_resolution res) 24 false pts.

(** Three points, far fewer than the 25 a 24-neighbour query asks for. *)
Definition three_points : list Point3 :=
  [mkPoint3 0 0 5; mkPoint3 (3 # 2) 0 6; mkPoint3 (3 # 2) (3 # 2) 7].

(** The same three points moved away from the origin. *)
Definition shifted_points : list Point3 :=
  [mkPoint3 10 20 5; mkPoint3 (23 # 2) 20 6; mkPoint3 (23 # 2) (43 # 2) 7].

Definition env : Environment :=
  mkEnvironment
    (fun _ => Some 0) (fun _ => Some 1%Q) (fun _ => false)
    (fun _ => true) (fun _ => true)
    (assign (set_points three_points)).

End Sample.

(** ** Definitions used to state the properties *)

(** The World Transform as the specification words it: scale by
    [(extentX / width, extentY / height, 1)], then translate by
    [(-extentX/2 + center.x, -extentY/2 + center.y, 0)]. *)
Definition scale_point (sx sy sz : Q) (p : Point3) : Point3 :=
  mkPoint3 (px p * sx) (py p * sy) (pz p * sz).

Definition translate_point (tx ty tz : Q) (p : Point3) : Point3 :=
  mkPoint3 (px p + tx) (py p + ty) (pz p + tz).

Definition scale_then_translate
           (extentX extentY : Q) (width height : Z) (center : Point3)
           (p : Point3) : Point3 :=
  translate_point (- extentX / 2 + px center) (- extentY / 2 + py center) 0
    (scale_point (extentX / inject_Z width) (extentY / inject_Z height) 1 p).

(** The library with another smoother in place of its own. *)
Definition with_diffusion
           (vtk : Library)
           (smoother : vtkImageAnisotropicDiffusion2D -> vtkImageData -> vtkImageData)
  : Library :=
  mkLibrary (GetBounds vtk) (StatisticalOutlierRemoval vtk) (NumberOfPointsRemoved vtk)
            (PlaneSource vtk) (PointInterpolator vtk) smoother
            (GreedyTerrainDecimation vtk).

(** The files handed to the TIFF writer during a run, with their contents. *)
Definition exported (tr : list Event) : list (string * vtkImageData) :=
  flat_map (fun ev => match ev with
                      | TIFFWrite fileName input => [(fileName, input)]
                      | _ => []
                      end) tr.

(** ** [Odm25dMeshing::loadPointCloud]

    The PLY file is read by PCL into a blob: a list of named fields, the size
    of one point in bytes and the raw bytes.  What PCL and the memory hold is
    given by [Pcl.Files]: the return code and blob of [pcl::io::loadPLYFile],
    the number a [double*] or [float*] dereference finds at a byte position,
    and [std::to_string]. *)

Module Pcl.

(** The two values of [pcl::PCLPointField::PointFieldTypes] the loader
    looks at. *)
Definition FLOAT32 : Z := 7.
Definition FLOAT64 : Z := 8.

Record PCLPointField : Type := mkField {
  name : string;
  offset : Z;
  datatype : Z
}.

Record PCLPointCloud2 : Type := mkBlob {
  fields : list PCLPointField;
  point_step : Z;
  data : list Byte.byte
}.

Record Files : Type := mkFiles {
  loadPLYFile : string -> Z * PCLPointCloud2;
  deref_double : list Byte.byte -> Z -> Q;
  deref_float : list Byte.byte -> Z -> Q;
  to_string : Z -> string
}.

(** The three field pointers [posX], [posY], [posZ]; [None] is [NULL]. *)
Definition Positions : Type :=
  (option PCLPointField * option PCLPointField * option PCLPointField)%type.

(** The loop over [blob.fields] with the macro [ASSIGN]: a field named "x",
    "y" or "z" is remembered and its name is logged. *)
Fixpoint scan_fields (fs : list PCLPointField) (pos : Positions) : M Positions :=
  match fs with
  | [] => ret pos
  | f :: fs' =>
    let '(posX, posY, posZ) := pos in
    if (name f =? "x")%string then
      bind (log "x") (fun _ => bind (log " ") (fun _ =>
        scan_fields fs' (Some f, posY, posZ)))
    else if (name f =? "y")%string then
      bind (log "y") (fun _ => bind (log " ") (fun _ =>
        scan_fields fs' (posX, Some f, posZ)))
    else if (name f =? "z")%string then
      bind (log "z") (fun _ => bind (log " ") (fun _ =>
        scan_fields fs' (posX, posY, Some f)))
    else scan_fields fs' pos
  end.

(** The values [point_step] takes in
    [for (point_step = 0; point_step < blob.data.size(); point_step += blob.point_step)],
    from the value [at_] on; [None] when the loop is still running after
    [fuel] rounds. *)
Fixpoint point_offsets (fuel : nat) (at_ size step : Z) : option (list Z) :=
  if at_ <? size then
    match fuel with
    | O => None
    | S fuel' =>
      match point_offsets fuel' (at_ + step) size step with
      | Some rest => Some (at_ :: rest)
      | None => None
      end
    end
  else Some [].

(** The body of the loop for the point at byte position [at_]. *)
Definition read_point (files : Files) (blob : PCLPointCloud2)
           (posX posY posZ : PCLPointField) (at_ : Z) : M unit :=
  if datatype posX =? FLOAT64 then
    assign (fun o =>
      set_points
        (points o ++
           [mkPoint3 (deref_double files (data blob) (at_ + offset posX))
                     (deref_double files (data blob) (at_ + offset posY))
                     (deref_double files (data blob) (at_ + offset posZ))]) o)
  else if datatype posX =? FLOAT32 then
    assign (fun o =>
      set_points
        (points o ++
           [mkPoint3 (deref_float files (data blob) (at_ + offset posX))
                     (deref_float files (data blob) (at_ + offset posY))
                     (deref_float files (data blob) (at_ + offset posZ))]) o)
  else
    throw (Odm25dMeshingException
             ("Invalid datatype " ++ to_string files (datatype posX) ++ " for point.")%string).

Fixpoint read_points (files : Files) (blob : PCLPointCloud2)
         (posX posY posZ : PCLPointField) (offsets : list Z) : M unit :=
  match offsets with
  | [] => ret tt
  | at_ :: rest =>
    bind (read_point files blob posX posY posZ at_)
         (fun _ => read_points files blob posX posY posZ rest)
  end.

(** [loadPointCloud] up to the loop over the points: the blob and the three
    fields when it gets there. *)
Definition open_cloud (files : Files)
  : M (PCLPointCloud2 * PCLPointField * PCLPointField * PCLPointField) :=
  bind (log "Loading point cloud... ") (fun _ =>
  bind this (fun o =>
  let '(code, blob) := loadPLYFile files (inputFile o) in
  bind (if code =? -1
        then throw (Odm25dMeshingException
                      ("Error when reading from: " ++ inputFile o)%string)
        else ret tt) (fun _ =>
  bind (log ("OK" ++ nl)%string) (fun _ =>
  bind (log "Scanning fields... ") (fun _ =>
  bind (scan_fields (fields blob) (None, None, None)) (fun pos =>
  bind (log ("OK" ++ nl)%string) (fun _ =>
  match pos with
  | (Some posX, Some posY, Some posZ) =>
    if negb (datatype posX =? FLOAT32) && negb (datatype posX =? FLOAT64)
    then throw (Odm25dMeshingException
                  "Only float and float64 types are supported for position information")
    else ret (blob, posX, posY, posZ)
  | _ =>
    throw (Odm25dMeshingException "Position attributes (x,y,z) missing from input")
  end))))))).

(** [loadPointCloud]; [None] when the loop over the points never ends. *)
Definition loadPointCloud (files : Files) (w : World)
  : option (World * outcome unit) :=
  match open_cloud files w with
  | (w1, Return (blob, posX, posY, posZ)) =>
    match point_offsets (S (List.length (data blob))) 0
                        (Z.of_nat (List.length (data blob))) (point_step blob) with
    | None => None
    | Some offsets =>
      Some (bind (read_points files blob posX posY posZ offsets) (fun _ =>
            bind (log "Loaded ") (fun _ =>
            bind this (fun o =>
            bind (log_int (Z.of_nat (List.length (points o)))) (fun _ =>
            log (" points" ++ nl)%string)))) w1)
    end
  | (w1, Throw e) => Some (w1, Throw e)
  | (w1, Exit c) => Some (w1, Exit c)
  end.

End Pcl.

(** ** Predicates on runs *)

(** The events written with [log <<]. *)
Definition is_log (ev : Event) : bool :=
  match ev with
  | LogStr _ | LogInt _ | LogDouble _ => true
  | _ => false
  end.

(** The openings of an output stream, which [parseArguments] makes to see
    whether a file can be written. *)
Definition is_probe (ev : Event) : bool :=
  match ev with
  | OfstreamOpen _ _ => true
  | _ => false
  end.

(** What is left of a history without the log lines and the openings of
    output streams: the library runs and the files handed to the writers and
    to the logger. *)
Definition stage_events (tr : list Event) : list Event :=
  filter (fun ev => negb (is_log ev || is_probe ev)) tr.

(** [wp m Q E X w]: run from [w], the call [m] ends in a state that satisfies
    [Q] with its value when it returns, [E] with its exception when it throws
    and [X] with its code when it exits. *)
Definition wp {A} (m : M A)
           (Q : A -> World -> Prop) (E : exn -> World -> Prop) (X : Z -> World -> Prop)
           (w : World) : Prop :=
  match m w with
  | (w', Return a) => Q a w'
  | (w', Throw e) => E e w'
  | (w', Exit c) => X c w'
  end.

(** What [parseArguments] appends to a history: a log line, or the opening
    of an output stream on a path that satisfies [P], with the outcome the
    surroundings give for that path. *)
Definition parse_event (env : Environment) (P : string -> Prop) (ev : Event) : Prop :=
  is_log ev = true \/
  exists path, ev = OfstreamOpen path (ofstream_is_open env path) /\ P path.

(** [w] continues the history of [w0] with such events only. *)
Definition parsed_after (env : Environment) (P : string -> Prop) (w0 w : World) : Prop :=
  exists evs, events w = events w0 ++ evs /\ Forall (parse_event env P) evs.

(** The lines [printHelp] logs, for an object and a logger flag. *)
Definition help_text (o : Odm25dMeshing) (printing : bool) : list Event :=
  events (fst (printHelp (mkWorld o printing []))).

(** The options that take a value, and all the options [parseArguments]
    knows. *)
Definition value_flags : list string :=
  ["-maxVertexCount"; "-resolution"; "-shepardNeighbors"; "-inputFile";
   "-outputFile"; "-outputDsmFile"; "-logFile"]%string.

Definition known_flags : list string :=
  ("-help" :: "-verbose" :: "-showDebugWindow" :: value_flags)%string.

(** Surroundings in which every number read from an argument is far too
    large and no file can be opened for writing. *)
Definition wide_env : Environment :=
  mkEnvironment (fun _ => Some 5000000000) (fun _ => Some 1000000%Q) (fun _ => false)
                (fun _ => true) (fun _ => false) (ret tt).

(** One assignment to a scalar array, and the assignment the image loops make
    for the pixel [(i, j)] of an image [W] wide. *)
Definition store (s : list Q) (kv : nat * Q) : list Q := set_nth s (fst kv) (snd kv).

Definition pixel (W : Z) (f : Z -> Z -> Q) (ij : Z * Z) : nat * Q :=
  (Z.to_nat (snd ij * W + fst ij), f (fst ij) (snd ij)).

(** The field a scan of [fs] leaves in the pointer for the name [n], when
    the pointer held [init] before: the last field of that name. *)
Fixpoint last_named (n : string) (fs : list Pcl.PCLPointField)
         (init : option Pcl.PCLPointField) : option Pcl.PCLPointField :=
  match fs with
  | [] => init
  | f :: fs' => last_named n fs' (if (Pcl.name f =? n)%string then Some f else init)
  end.

(** The lines the scan logs: the name of every position field it meets. *)
Fixpoint scan_log (fs : list Pcl.PCLPointField) : list Event :=
  match fs with
  | [] => []
  | f :: fs' =>
    (if (Pcl.name f =? "x")%string then [LogStr "x"; LogStr " "]
     else if (Pcl.name f =? "y")%string then [LogStr "y"; LogStr " "]
     else if (Pcl.name f =? "z")%string then [LogStr "z"; LogStr " "]
     else []) ++ scan_log fs'
  end.

(** The point a dereference of the three fields finds at byte position [at_],
    all three read as the type of the field "x". *)
Definition decoded_point (files : Pcl.Files) (blob : Pcl.PCLPointCloud2)
           (posX posY posZ : Pcl.PCLPointField) (at_ : Z) : Point3 :=
  let deref := if Pcl.datatype posX =? Pcl.FLOAT64
               then Pcl.deref_double files else Pcl.deref_float files in
  mkPoint3 (deref (Pcl.data blob) (at_ + Pcl.offset posX))
           (deref (Pcl.data blob) (at_ + Pcl.offset posY))
           (deref (Pcl.data blob) (at_ + Pcl.offset posZ)).

(** The three exceptions [loadPointCloud] throws. *)
Definition load_error (o : Odm25dMeshing) : exn :=
  Odm25dMeshingException ("Error when reading from: " ++ inputFile o)%string.
Definition positions_missing : exn :=
  Odm25dMeshingException "Position attributes (x,y,z) missing from input".
Definition unsupported_type : exn :=
  Odm25dMeshingException
    "Only float and float64 types are supported for position information".

(** The log lines of [loadPointCloud] before the points are read. *)
Definition open_log (blob : Pcl.PCLPointCloud2) : list Event :=
  [LogStr "Loading point cloud... "; LogStr ("OK" ++ nl)%string;
   LogStr "Scanning fields... "]
  ++ scan_log (Pcl.fields blob) ++ [LogStr ("OK" ++ nl)%string].

(** The lines logged once the points are read. *)
Definition loaded_log (pts : list Point3) : list Event :=
  [LogStr "Loaded "; LogInt (Z.of_nat (List.length pts)); LogStr (" points" ++ nl)%string].

(** Files to load: "cloud.ply" holds 30 bytes of points of 12 bytes with
    three float fields; "flat.ply" has no field "z"; in "int.ply" the field
    "x" is not a float; "stuck.ply" declares points of 0 bytes; no other file
    can be read.  A dereference gives the byte position it is made at. *)
Definition sample_blob (fs : list Pcl.PCLPointField) (step : Z) : Pcl.PCLPointCloud2 :=
  Pcl.mkBlob fs step (repeat Byte.x00 30).

Definition xyz_fields : list Pcl.PCLPointField :=
  [Pcl.mkField "x" 0 Pcl.FLOAT32; Pcl.mkField "y" 4 Pcl.FLOAT32;
   Pcl.mkField "z" 8 Pcl.FLOAT32].

Definition sample_files : Pcl.Files :=
  Pcl.mkFiles
    (fun path =>
       if (path =? "cloud.ply")%string then (0, sample_blob xyz_fields 12)
       else if (path =? "flat.ply")%string
            then (0, sample_blob [Pcl.mkField "x" 0 Pcl.FLOAT32;
                                  Pcl.mkField "y" 4 Pcl.FLOAT32] 12)
       else if (path =? "int.ply")%string
            then (0, sample_blob [Pcl.mkField "x" 0 5; Pcl.mkField "y" 4 5;
                                  Pcl.mkField "z" 8 5] 12)
       else if (path =? "stuck.ply")%string then (0, sample_blob xyz_fields 0)
       else (-1, Pcl.mkBlob [] 0 []))
    (fun _ at_ => inject_Z at_) (fun _ at_ => inject_Z at_) (fun _ => "?"%string).

(** The arithmetic of lines 550 to 554 and 605 on this object is the one of
    the model: the two extents and their products with the resolution are
    values of type [double], so that no subtraction or multiplication is
    rounded before [ceil] is taken, and the number of cells [width * height],
    the largest product of two [int] the source forms, is an [int]. *)
Definition raster_is_exact (vtk : Library) (o : Odm25dMeshing) : Prop :=
  Double.representable (extentX vtk o) /\
  Double.representable (extentY vtk o) /\
  Double.representable (extentX vtk o * resolution o) /\
  Double.representable (extentY vtk o * resolution o) /\
  width vtk o * height vtk o <= Int32.INT_MAX.

(** The ranges the parser clamps the numeric options to. *)
Definition in_ranges (o : Odm25dMeshing) : Prop :=
  ((1 # 100000) <= resolution o)%Q /\ (resolution o <= 100000)%Q /\
  1 <= shepardNeighbors o <= 1000 /\
  0 <= maxVertexCount o < 2 ^ 32.

(** ** Tactics *)

(** Runs a member function on [start o], down to its list of events. *)
Ltac run_pipeline :=
  cbv beta iota zeta delta
    [trace result buildMesh bind this emit log log_int log_double ret start
     fst snd events self isPrintingInCout app].

Ltac event_cases H :=
  cbv beta iota delta [In] in H;
  repeat (destruct H as [H | H]; [try discriminate H |]);
  try contradiction.

Ltac event_found :=
  cbv beta iota delta [In];
  repeat (first [left; reflexivity | right]).

(** * Properties *)

(** ** Conversions between [double] and [int] *)

Lemma to_int_inject_Z (z : Z) : Double.to_int (inject_Z z) = z.
Proof.
  unfold Double.to_int.
  destruct (Qle_bool 0 (inject_Z z)); [apply Qfloor_Z | apply Qceiling_Z].
Qed.

Lemma to_int_ceil (x : Q) : Double.to_int (Double.ceil x) = Qceiling x.
Proof. unfold Double.ceil. apply to_int_inject_Z. Qed.

Lemma to_int_nonneg (x : Q) : (0 <= x)%Q -> Double.to_int x = Qfloor x.
Proof.
  intros Hx. unfold Double.to_int.
  destruct (Qle_bool 0 x) eqn:E; [reflexivity |].
  apply Qle_bool_iff in Hx. congruence.
Qed.

Lemma Qfloor_ge_iff (z : Z) (x : Q) : (z <= Qfloor x)%Z <-> (inject_Z z <= x)%Q.
Proof.
  split; intros H.
  - apply Qle_trans with (inject_Z (Qfloor x)).
    + rewrite <- Zle_Qle. exact H.
    + apply Qfloor_le.
  - rewrite <- (Qfloor_Z z). apply Qfloor_resp_le. exact H.
Qed.

Lemma Qceiling_le_iff (x : Q) (z : Z) : (Qceiling x <= z)%Z <-> (x <= inject_Z z)%Q.
Proof.
  split; intros H.
  - apply Qle_trans with (inject_Z (Qceiling x)).
    + apply Qle_ceiling.
    + rewrite <- Zle_Qle. exact H.
  - rewrite <- (Qceiling_Z z). apply Qceiling_resp_le. exact H.
Qed.

Lemma Qceiling_pos (x : Q) : (0 < x)%Q -> (0 < Qceiling x)%Z.
Proof.
  intros Hx. rewrite Zlt_Qlt.
  apply Qlt_le_trans with x; [exact Hx | apply Qle_ceiling].
Qed.

(** ** The events of [buildMesh] *)

Section BuildMesh.

Variable vtk : Library.
Variable o : Odm25dMeshing.

(** [buildMesh] contains no [throw]: it returns, for every library and
    every object. *)
Lemma buildMesh_returns : result (buildMesh vtk) o = Return tt.
Proof.
  run_pipeline.
  destruct (outputDsmFile o =? EmptyString)%string; reflexivity.
Qed.

Lemma outlier_removal_runs :
  In (OutlierRemovalUpdate (removal o) (polyPoints o)) (trace (buildMesh vtk) o).
Proof.
  run_pipeline.
  destruct (outputDsmFile o =? EmptyString)%string; event_found.
Qed.

Lemma mesh_is_written :
  In (PLYWrite (outputFile o) (transformFilter vtk o)) (trace (buildMesh vtk) o).
Proof.
  run_pipeline.
  destruct (outputDsmFile o =? EmptyString)%string; event_found.
Qed.

Lemma terrain_runs :
  In (TerrainUpdate (terrain o) (smoothed vtk o)) (trace (buildMesh vtk) o).
Proof.
  run_pipeline.
  destruct (outputDsmFile o =? EmptyString)%string; event_found.
Qed.

Lemma terrain_runs_once (f : vtkGreedyTerrainDecimation) (input : vtkImageData) :
  In (TerrainUpdate f input) (trace (buildMesh vtk) o) ->
  f = terrain o /\ input = smoothed vtk o.
Proof.
  run_pipeline.
  destruct (outputDsmFile o =? EmptyString)%string; intros H; event_cases H;
    injection H as <- <-; split; reflexivity.
Qed.

Lemma diffusion_runs_once (f : vtkImageAnisotropicDiffusion2D) (input : vtkImageData) :
  In (DiffusionUpdate f input) (trace (buildMesh vtk) o) ->
  f = surfaceDiffusion o /\ input = image vtk o.
Proof.
  run_pipeline.
  destruct (outputDsmFile o =? EmptyString)%string; intros H; event_cases H;
    injection H as <- <-; split; reflexivity.
Qed.

End BuildMesh.

(** From any state, [buildMesh] returns, leaves the object and the logger's
    flag as they are and appends the events of [trace]. *)
Lemma buildMesh_from (vtk : Library) (w : World) :
  buildMesh vtk w =
  (mkWorld (self w) (isPrintingInCout w)
     (events w ++ trace (buildMesh vtk) (self w)), Return tt).
Proof.
  destruct w as [o printing history].
  cbv beta iota zeta delta
    [trace buildMesh bind this emit log log_int log_double ret start
     fst snd events self isPrintingInCout].
  destruct (outputDsmFile o =? EmptyString)%string;
    cbv beta iota zeta; rewrite <- !app_assoc; reflexivity.
Qed.

(** [run] on at least one argument: once [parseArguments] and
    [loadPointCloud] have returned, whatever the number of points they left in
    the object, [buildMesh] is run, the mesh is written, and the exit code is
    [EXIT_SUCCESS]. *)
Lemma run_succeeds_after_load
      (vtk : Library) (env : Environment) (args : list string)
      (o : Odm25dMeshing) (w1 w2 : World) :
  args <> [] ->
  parseArguments env args
    (mkWorld o false [LogStr (logFilePath o); LogStr nl]) = (w1, Return tt) ->
  loadPointCloud env w1 = (w2, Return tt) ->
  result (run vtk env args) o = Return EXIT_SUCCESS /\
  In (PLYWrite (outputFile (self w2)) (transformFilter vtk (self w2)))
     (trace (run vtk env args) o).
Proof.
  intros Hargs Hparse Hload.
  assert (Hargc : (Z.of_nat (List.length args) + 1 <=? 1) = false).
  { destruct args as [| a args']; [congruence |].
    apply Z.leb_gt. cbn [List.length]. lia. }
  unfold result, trace, run.
  cbv beta iota zeta delta [bind this log emit start self isPrintingInCout events app].
  rewrite Hargc.
  unfold try_catch.
  cbv beta iota zeta delta [bind].
  rewrite Hparse, Hload, buildMesh_from.
  cbv beta iota zeta delta
    [ret this printToFile emit bind self isPrintingInCout events fst snd].
  split; [reflexivity |].
  rewrite !in_app_iff. left. right. apply mesh_is_written.
Qed.

(** ** C4: clouds with fewer than 25 points *)

(** C4, counterexample.  A cloud of three points, fewer than 24 + 1:
    [buildMesh] returns without an exception, the mesh is handed to the PLY
    writer, and [run] ends with [EXIT_SUCCESS]. *)
Lemma sparse_cloud_is_meshed :
  let o := Sample.object Sample.three_points 1 1000 EmptyString in
  (List.length (points o) < 24 + 1)%nat /\
  result (buildMesh Sample.vtk) o = Return tt /\
  In (PLYWrite "mesh.ply" (transformFilter Sample.vtk o))
     (trace (buildMesh Sample.vtk) o) /\
  result (run Sample.vtk Sample.env ["-inputFile"; "cloud.ply"]%string)
         (Sample.object [] 1 1000 EmptyString) = Return EXIT_SUCCESS.
Proof.
  cbv zeta. split; [| split; [| split]].
  - cbn [Sample.object points Sample.three_points List.length]. lia.
  - apply buildMesh_returns.
  - exact (mesh_is_written Sample.vtk (Sample.object Sample.three_points 1 1000 EmptyString)).
  - vm_compute. reflexivity.
Qed.

(** C4, as the code has it.  [buildMesh] makes no test on the number of
    points: for every cloud, those with fewer than 25 points included, the
    outlier removal is run on the whole cloud with a sample size of 24,
    [buildMesh] returns without throwing, and the transformed mesh is handed
    to the PLY writer under the output file name. *)
Theorem buildMesh_accepts_any_cloud (vtk : Library) (o : Odm25dMeshing) :
  result (buildMesh vtk) o = Return tt /\
  In (OutlierRemovalUpdate (removal o) (polyPoints o)) (trace (buildMesh vtk) o) /\
  Points (polyPoints o) = points o /\
  SampleSize (removal o) = 24 /\
  In (PLYWrite (outputFile o) (transformFilter vtk o)) (trace (buildMesh vtk) o).
Proof.
  split; [apply buildMesh_returns |].
  split; [apply outlier_removal_runs |].
  split; [reflexivity |].
  split; [reflexivity |].
  apply mesh_is_written.
Qed.

(** ** C3: the number of smoothing iterations *)

Lemma clamp_resolution_fixed (r : Q) :
  ((1 # 100000) <= r)%Q -> (r <= 100000)%Q -> clamp_resolution r == r.
Proof.
  intros Hlo Hhi. unfold clamp_resolution.
  rewrite (Q.max_l r (1 # 100000)) by exact Hlo.
  apply Q.min_r. exact Hhi.
Qed.

Lemma clamp_resolution_range (r : Q) :
  ((1 # 100000) <= clamp_resolution r)%Q /\ (clamp_resolution r <= 100000)%Q.
Proof.
  unfold clamp_resolution. split.
  - apply Q.min_glb; [discriminate | apply Q.le_max_r].
  - apply Q.le_min_l.
Qed.

(** [-resolution 1] and [-maxVertexCount 0] on the command line leave 1 and 0
    in the object (the sample surroundings read 1 and 0 from the two
    arguments). *)
Example parse_resolution_1 :
  let w := fst (parseArguments Sample.env ["-resolution"; "1"]%string
                  (start (Sample.object Sample.three_points 20 1000 EmptyString))) in
  (resolution (self w) == 1)%Q.
Proof. vm_compute. reflexivity. Qed.

Example parse_maxVertexCount_0 :
  let w := fst (parseArguments Sample.env ["-maxVertexCount"; "0"]%string
                  (start (Sample.object Sample.three_points 20 1000 EmptyString))) in
  maxVertexCount (self w) = 0.
Proof. vm_compute. reflexivity. Qed.

Lemma iterations_floor (o : Odm25dMeshing) :
  (0 <= resolution o)%Q ->
  NumberOfIterations (surfaceDiffusion o) = Qfloor (resolution o / 2).
Proof.
  intros Hr. unfold surfaceDiffusion. cbn [NumberOfIterations].
  apply to_int_nonneg.
  apply Qle_shift_div_l; [reflexivity | lra].
Qed.

(** C3, counterexample.  At resolution 1, a value the parser leaves as it is,
    the number of iterations handed to the smoother is 0: it is less than 1
    and it is not [resolution / 2] rounded.  At resolution 3 it is 1, again
    not 3/2 rounded. *)
Lemma iterations_at_resolution_one :
  let o1 := Sample.object Sample.three_points 1 1000 EmptyString in
  let o3 := Sample.object Sample.three_points 3 1000 EmptyString in
  resolution o1 == 1 /\
  NumberOfIterations (surfaceDiffusion o1) = 0 /\
  ~ 1 <= NumberOfIterations (surfaceDiffusion o1) /\
  Double.round (resolution o1 / 2) = 1 /\
  resolution o3 == 3 /\
  NumberOfIterations (surfaceDiffusion o3) = 1 /\
  Double.round (resolution o3 / 2) = 2.
Proof.
  cbv zeta. repeat split; try (vm_compute; reflexivity).
  vm_compute. intros H. apply H. reflexivity.
Qed.

(** C3, as the code has it.  For a non-negative resolution the number of
    iterations handed to the smoother is [resolution / 2] with its fraction
    discarded; it is at least 1 exactly when the resolution is at least 2, and
    it is the number every run of the smoother in [buildMesh] is configured
    with. *)
Theorem smoothing_iterations_truncated (o : Odm25dMeshing) :
  (0 <= resolution o)%Q ->
  NumberOfIterations (surfaceDiffusion o) = Qfloor (resolution o / 2) /\
  (1 <= NumberOfIterations (surfaceDiffusion o) <-> (2 <= resolution o)%Q) /\
  (forall vtk f input,
      In (DiffusionUpdate f input) (trace (buildMesh vtk) o) ->
      NumberOfIterations f = Qfloor (resolution o / 2)).
Proof.
  intros Hr. pose proof (iterations_floor o Hr) as Hn.
  split; [exact Hn |]. split.
  - rewrite Hn, Qfloor_ge_iff.
    change (inject_Z 1) with 1%Q.
    change (resolution o / 2)%Q with (resolution o * (1 # 2))%Q.
    split; intros H; lra.
  - intros vtk f input Hin.
    apply diffusion_runs_once in Hin. destruct Hin as [-> _]. exact Hn.
Qed.

(** C3, an instance: at resolution 20 the smoother is given 10 iterations. *)
Lemma smoothing_iterations_at_20 :
  (0 <= resolution (Sample.object Sample.three_points 20 1000 EmptyString))%Q /\
  NumberOfIterations
    (surfaceDiffusion (Sample.object Sample.three_points 20 1000 EmptyString)) = 10.
Proof.
  split.
  - vm_compute. discriminate.
  - rewrite (proj1 (smoothing_iterations_truncated
                      (Sample.object Sample.three_points 20 1000 EmptyString)
                      ltac:(vm_compute; discriminate))).
    vm_compute. reflexivity.
Defined.

(** ** C2: a vertex budget of 0 *)

Lemma budget_is_twice_maxVertexCount (o : Odm25dMeshing) :
  ErrorMeasure (terrain o) = NUMBER_OF_TRIANGLES /\
  NumberOfTriangles (terrain o) = (maxVertexCount o * 2) mod 2 ^ 32 /\
  BoundaryVertexDeletion (terrain o) = true.
Proof. repeat split. Qed.

(** C2, counterexample.  With [-maxVertexCount 0] the object holds 0, and the
    decimator is run with the error measure "number of triangles" and a
    budget of 0 triangles: the value is not replaced by a default. *)
Lemma zero_budget_reaches_decimator :
  let o := Sample.object Sample.three_points 1 0 EmptyString in
  maxVertexCount o = 0 /\
  In (TerrainUpdate (mkTerrain NUMBER_OF_TRIANGLES 0 true) (smoothed Sample.vtk o))
     (trace (buildMesh Sample.vtk) o).
Proof.
  cbv zeta. split; [reflexivity |].
  exact (terrain_runs Sample.vtk (Sample.object Sample.three_points 1 0 EmptyString)).
Qed.

(** C2, as the code has it.  When [maxVertexCount] is 0, [buildMesh] runs the
    decimator once, on the smoothed image, with the error measure "number of
    triangles" and the budget [maxVertexCount * 2 = 0]; the value 0 gets no
    treatment of its own. *)
Theorem zero_maxVertexCount_gives_zero_budget (vtk : Library) (o : Odm25dMeshing) :
  maxVertexCount o = 0 ->
  In (TerrainUpdate (mkTerrain NUMBER_OF_TRIANGLES 0 true) (smoothed vtk o))
     (trace (buildMesh vtk) o) /\
  (forall f input,
      In (TerrainUpdate f input) (trace (buildMesh vtk) o) ->
      ErrorMeasure f = NUMBER_OF_TRIANGLES /\ NumberOfTriangles f = 0).
Proof.
  intros Hzero.
  assert (Hterrain : terrain o = mkTerrain NUMBER_OF_TRIANGLES 0 true).
  { unfold terrain. rewrite Hzero. reflexivity. }
  split.
  - rewrite <- Hterrain. apply terrain_runs.
  - intros f input Hin. apply terrain_runs_once in Hin.
    destruct Hin as [-> _]. rewrite Hterrain. split; reflexivity.
Qed.

(** C2, an instance: the run on three points with [-maxVertexCount 0]. *)
Lemma zero_maxVertexCount_sample :
  maxVertexCount (Sample.object Sample.three_points 1 0 "dsm.tif") = 0 /\
  In (TerrainUpdate (mkTerrain NUMBER_OF_TRIANGLES 0 true)
        (smoothed Sample.vtk (Sample.object Sample.three_points 1 0 "dsm.tif")))
     (trace (buildMesh Sample.vtk) (Sample.object Sample.three_points 1 0 "dsm.tif")).
Proof.
  split.
  - reflexivity.
  - exact (proj1 (zero_maxVertexCount_gives_zero_budget Sample.vtk
                    (Sample.object Sample.three_points 1 0 "dsm.tif") eq_refl)).
Defined.

(** ** The size of the raster *)

(** For a positive resolution and positive extents the raster has at least
    one cell in each direction. *)
Lemma raster_has_cells (vtk : Library) (o : Odm25dMeshing) :
  (0 < resolution o)%Q -> (0 < extentX vtk o)%Q -> (0 < extentY vtk o)%Q ->
  0 < width vtk o /\ 0 < height vtk o.
Proof.
  intros Hr HX HY. unfold width, height. rewrite !to_int_ceil.
  split; apply Qceiling_pos; apply Qmult_lt_0_compat; assumption.
Qed.

(** When the number of cells is an [int], so are the two sizes. *)
Lemma raster_fits_int (vtk : Library) (o : Odm25dMeshing) :
  0 < width vtk o -> 0 < height vtk o -> raster_is_exact vtk o ->
  width vtk o <= Int32.INT_MAX /\ height vtk o <= Int32.INT_MAX.
Proof.
  intros HW HH (_ & _ & _ & _ & Hcells).
  assert (H1 : width vtk o * 1 <= width vtk o * height vtk o)
    by (apply Z.mul_le_mono_nonneg_l; lia).
  assert (H2 : 1 * height vtk o <= width vtk o * height vtk o)
    by (apply Z.mul_le_mono_nonneg_r; lia).
  lia.
Qed.

Lemma scale_positive (vtk : Library) (o : Odm25dMeshing) :
  (0 < resolution o -> 0 < extentX vtk o -> 0 < extentY vtk o ->
   0 < inject_Z (width vtk o) /\ 0 < inject_Z (height vtk o) /\
   0 < extentX vtk o / inject_Z (width vtk o) /\
   0 < extentY vtk o / inject_Z (height vtk o))%Q.
Proof.
  intros Hr HX HY.
  destruct (raster_has_cells vtk o Hr HX HY) as [HW HH].
  assert (HW' : (0 < inject_Z (width vtk o))%Q)
    by (change 0%Q with (inject_Z 0); rewrite <- Zlt_Qlt; exact HW).
  assert (HH' : (0 < inject_Z (height vtk o))%Q)
    by (change 0%Q with (inject_Z 0); rewrite <- Zlt_Qlt; exact HH).
  split; [exact HW' |]. split; [exact HH' |].
  split; apply Qlt_shift_div_l; try assumption; rewrite Qmult_0_l; assumption.
Qed.

(** The sample raster of 3 x 3 cells over extents of 3/2 at resolution 2, and
    the one of 2 x 2 cells at resolution 1: the extents and their products
    with the resolution are values of type [double]. *)
Lemma sample_raster_is_exact :
  raster_is_exact Sample.vtk (Sample.object Sample.shifted_points 2 1000 EmptyString).
Proof.
  unfold raster_is_exact.
  split; [exists 3, (-1) | split; [exists 3, (-1) | split; [exists 3, 0 | split; [exists 3, 0 |]]]];
    try (split; [reflexivity | split; [split; discriminate | vm_compute; reflexivity]]).
  vm_compute. discriminate.
Qed.

Lemma sample_raster_is_exact_at_1 :
  raster_is_exact Sample.vtk (Sample.object Sample.shifted_points 1 1000 EmptyString).
Proof.
  unfold raster_is_exact.
  split; [exists 3, (-1) | split; [exists 3, (-1) | split; [exists 3, (-1) | split; [exists 3, (-1) |]]]];
    try (split; [reflexivity | split; [split; discriminate | vm_compute; reflexivity]]).
  vm_compute. discriminate.
Qed.

(** ** C6: the world transform *)

Lemma transform_point (vtk : Library) (o : Odm25dMeshing) (p : Point3) :
  Peq (TransformPoint (transform vtk o) p)
      (scale_then_translate (extentX vtk o) (extentY vtk o)
                            (width vtk o) (height vtk o) (center vtk o) p).
Proof.
  unfold transform, scale_then_translate, translate_point, scale_point.
  generalize (extentX vtk o / inject_Z (width vtk o))%Q
             (extentY vtk o / inject_Z (height vtk o))%Q
             (- extentX vtk o / 2 + px (center vtk o))%Q
             (- extentY vtk o / 2 + py (center vtk o))%Q.
  intros sx sy tx ty.
  cbv beta iota zeta delta
    [TransformPoint Scale Translate Concatenate vtkTransform_New Identity
     Multiply4x4 Matrix PreMultiplyFlag dot column Peq px py pz].
  repeat split; ring.
Qed.

Lemma transformed_points (vtk : Library) (o : Odm25dMeshing) (pts : list Point3) :
  Forall2 Peq
    (map (TransformPoint (transform vtk o)) pts)
    (map (scale_then_translate (extentX vtk o) (extentY vtk o)
                               (width vtk o) (height vtk o) (center vtk o)) pts).
Proof.
  induction pts as [| p pts IH]; cbn [map]; constructor.
  - apply transform_point.
  - exact IH.
Qed.

(** C6.  For a positive resolution and positive extents, on a raster whose
    sizes the source computes without rounding and without overflow: the
    raster has at least one cell in each direction, so that the two scale
    factors [extentX / width] and [extentY / height] are quotients by a
    non-zero [int] and are positive numbers; the mesh handed to the PLY writer
    is the decimated mesh with every vertex first scaled by
    [(extentX / width, extentY / height, 1)] and then translated by
    [(-extentX/2 + center.x, -extentY/2 + center.y, 0)]; the transform is a
    function defined on every vertex, and the cells (the topology), the
    scalars and the number of vertices are those of the decimated mesh. *)
Theorem world_transform_scales_then_translates (vtk : Library) (o : Odm25dMeshing) :
  (0 < resolution o)%Q -> (0 < extentX vtk o)%Q -> (0 < extentY vtk o)%Q ->
  raster_is_exact vtk o ->
  0 < width vtk o <= Int32.INT_MAX /\
  0 < height vtk o <= Int32.INT_MAX /\
  (0 < extentX vtk o / inject_Z (width vtk o))%Q /\
  (0 < extentY vtk o / inject_Z (height vtk o))%Q /\
  Forall2 Peq
    (Points (transformFilter vtk o))
    (map (scale_then_translate (extentX vtk o) (extentY vtk o)
                               (width vtk o) (height vtk o) (center vtk o))
         (Points (decimated vtk o))) /\
  Cells (transformFilter vtk o) = Cells (decimated vtk o) /\
  Scalars (transformFilter vtk o) = Scalars (decimated vtk o) /\
  List.length (Points (transformFilter vtk o)) = List.length (Points (decimated vtk o)) /\
  In (PLYWrite (outputFile o) (transformFilter vtk o)) (trace (buildMesh vtk) o).
Proof.
  intros Hr HX HY Hexact.
  destruct (raster_has_cells vtk o Hr HX HY) as [HW HH].
  destruct (raster_fits_int vtk o HW HH Hexact) as [HWmax HHmax].
  destruct (scale_positive vtk o Hr HX HY) as (_ & _ & HsX & HsY).
  split; [split; assumption |].
  split; [split; assumption |].
  split; [exact HsX |].
  split; [exact HsY |].
  split; [apply transformed_points |].
  split; [reflexivity |].
  split; [reflexivity |].
  split; [apply length_map | apply mesh_is_written].
Qed.

(** C6, an instance: the mesh over the raster of 3 x 3 cells has the four
    vertices of the decimated mesh, scaled by 1/2 in both directions. *)
Lemma world_transform_sample :
  let o := Sample.object Sample.shifted_points 2 1000 EmptyString in
  (0 < resolution o)%Q /\ (0 < extentX Sample.vtk o)%Q /\ (0 < extentY Sample.vtk o)%Q /\
  raster_is_exact Sample.vtk o /\
  (extentX Sample.vtk o / inject_Z (width Sample.vtk o) == 1 # 2)%Q /\
  List.length (Points (transformFilter Sample.vtk o)) = 4%nat /\
  Forall2 Peq
    (Points (transformFilter Sample.vtk o))
    (map (scale_then_translate (extentX Sample.vtk o) (extentY Sample.vtk o)
                               (width Sample.vtk o) (height Sample.vtk o)
                               (center Sample.vtk o))
         (Points (decimated Sample.vtk o))).
Proof.
  cbv zeta.
  assert (Hr : (0 < resolution (Sample.object Sample.shifted_points 2 1000 EmptyString))%Q)
    by (vm_compute; reflexivity).
  assert (HX : (0 < extentX Sample.vtk
                       (Sample.object Sample.shifted_points 2 1000 EmptyString))%Q)
    by (vm_compute; reflexivity).
  assert (HY : (0 < extentY Sample.vtk
                       (Sample.object Sample.shifted_points 2 1000 EmptyString))%Q)
    by (vm_compute; reflexivity).
  split; [exact Hr |]. split; [exact HX |]. split; [exact HY |].
  split; [exact sample_raster_is_exact |].
  split; [vm_compute; reflexivity |].
  destruct (world_transform_scales_then_translates Sample.vtk
              (Sample.object Sample.shifted_points 2 1000 EmptyString)
              Hr HX HY sample_raster_is_exact)
    as (_ & _ & _ & _ & Hpoints & _ & _ & Hlength & _).
  split; [rewrite Hlength; vm_compute; reflexivity | exact Hpoints].
Defined.

(** The order of the two operations matters: translating first and scaling
    afterwards sends the same vertex elsewhere. *)
Example translate_then_scale_differs :
  let o := Sample.object Sample.shifted_points 1 1000 EmptyString in
  let p := mkPoint3 1 1 5 in
  ~ Peq (TransformPoint (transform Sample.vtk o) p)
        (scale_point (extentX Sample.vtk o / inject_Z (width Sample.vtk o))
                     (extentY Sample.vtk o / inject_Z (height Sample.vtk o)) 1
           (translate_point (- extentX Sample.vtk o / 2 + px (center Sample.vtk o))
                            (- extentY Sample.vtk o / 2 + py (center Sample.vtk o)) 0 p)).
Proof.
  cbv zeta. unfold Peq. intros [Hx _]. vm_compute in Hx. discriminate Hx.
Qed.

(** ** C7: the geometry of the raster *)

Local Open Scope Q_scope.

Lemma grid_step (E r : Q) :
  0 < r -> 0 < E ->
  E / inject_Z (Qceiling (E * r)) <= 1 / r /\
  (E / inject_Z (Qceiling (E * r)) == 1 / r <->
   E * r == inject_Z (Qceiling (E * r))).
Proof.
  intros Hr HE.
  assert (HEr : 0 < E * r) by (apply Qmult_lt_0_compat; assumption).
  pose proof (Qle_ceiling (E * r)) as Hceil.
  set (W := inject_Z (Qceiling (E * r))) in *.
  assert (HW : 0 < W) by (apply Qlt_le_trans with (E * r); assumption).
  assert (Hr0 : ~ r == 0) by lra.
  assert (HW0 : ~ W == 0) by lra.
  assert (HE0 : ~ E == 0) by lra.
  split.
  - apply Qle_shift_div_r; [exact HW |].
    assert (H1 : 1 / r * W == W / r) by (field; exact Hr0).
    rewrite H1. apply Qle_shift_div_l; [exact Hr | exact Hceil].
  - split; intros H.
    + assert (H1 : E * r == E / W * (W * r)) by (field; exact HW0).
      rewrite H1, H. field. exact Hr0.
    + rewrite <- H. field. split; assumption.
Qed.

Section Raster.

Variable vtk : Library.
Variable o : Odm25dMeshing.

Lemma width_is_ceiling : width vtk o = Qceiling (extentX vtk o * resolution o).
Proof. apply to_int_ceil. Qed.

Lemma height_is_ceiling : height vtk o = Qceiling (extentY vtk o * resolution o).
Proof. apply to_int_ceil. Qed.

Lemma SetScalar_Dimensions (img : vtkImageData) (i j : Z) (v : Q) :
  Dimensions (SetScalar img i j v) = Dimensions img.
Proof.
  unfold SetScalar. destruct (Dimensions img) as [[w h] d]. reflexivity.
Qed.

Lemma fill_Dimensions (A : Type) (step : vtkImageData -> A -> vtkImageData)
      (l : list A) (img : vtkImageData) :
  (forall im a, Dimensions (step im a) = Dimensions im) ->
  Dimensions (fold_left step l img) = Dimensions img.
Proof.
  intros Hstep. revert img.
  induction l as [| a l IH]; intros img; cbn [fold_left];
    [reflexivity | rewrite IH; apply Hstep].
Qed.

Lemma image_Dimensions :
  Dimensions (image vtk o) = (width vtk o, height vtk o, 1%Z).
Proof.
  unfold image.
  rewrite fill_Dimensions.
  - reflexivity.
  - intros im i. apply fill_Dimensions.
    intros im' j. apply SetScalar_Dimensions.
Qed.

(** The vertex with grid indices [(0, 0)] is sent to the corner
    [(xmin, ymin)] of the bounds. *)
Lemma grid_origin (e : Q) :
  Peq (TransformPoint (transform vtk o) (mkPoint3 0 0 e))
      (mkPoint3 (b0 (bounds vtk o)) (b2 (bounds vtk o)) e).
Proof.
  destruct (transform_point vtk o (mkPoint3 0 0 e)) as (Hx & Hy & Hz).
  unfold Peq. rewrite Hx, Hy, Hz.
  unfold scale_then_translate, translate_point, scale_point.
  cbn [px py pz].
  generalize (extentX vtk o / inject_Z (width vtk o))
             (extentY vtk o / inject_Z (height vtk o)).
  intros sx sy.
  unfold extentX, extentY, center, GetCenter. cbn [px py pz].
  repeat split; field.
Qed.

(** The vertex with grid indices [(i, j)] lies [i] steps of
    [extentX / width] and [j] steps of [extentY / height] from that corner. *)
Lemma grid_vertex (i j : Z) (e : Q) :
  let p := TransformPoint (transform vtk o) (mkPoint3 (inject_Z i) (inject_Z j) e) in
  px p - b0 (bounds vtk o) == inject_Z i * (extentX vtk o / inject_Z (width vtk o)) /\
  py p - b2 (bounds vtk o) == inject_Z j * (extentY vtk o / inject_Z (height vtk o)) /\
  pz p == e.
Proof.
  cbv zeta.
  destruct (transform_point vtk o (mkPoint3 (inject_Z i) (inject_Z j) e))
    as (Hx & Hy & Hz).
  rewrite Hx, Hy, Hz.
  unfold scale_then_translate, translate_point, scale_point.
  cbn [px py pz].
  generalize (extentX vtk o / inject_Z (width vtk o))
             (extentY vtk o / inject_Z (height vtk o)).
  intros sx sy.
  unfold extentX, extentY, center, GetCenter. cbn [px py pz].
  repeat split; field.
Qed.

End Raster.

(** C7, counterexample.  Three points whose bounds are [10, 23/2] x
    [20, 43/2], at resolution 1: the extents are 3/2, nothing is rounded and
    nothing overflows, the raster is 2 x 2, and
    the vertex with grid indices (1, 1) lies (3/4, 3/4) from the corner of the
    bounds, not (1/resolution, 1/resolution) = (1, 1). *)
Lemma grid_step_is_not_inverse_resolution :
  let o := Sample.object Sample.shifted_points 1 1000 EmptyString in
  let p := TransformPoint (transform Sample.vtk o) (mkPoint3 1 1 0) in
  resolution o == 1 /\
  extentX Sample.vtk o == 3 # 2 /\
  raster_is_exact Sample.vtk o /\
  Dimensions (image Sample.vtk o) = (2, 2, 1)%Z /\
  b0 (bounds Sample.vtk o) == 10 /\
  b2 (bounds Sample.vtk o) == 20 /\
  px p - b0 (bounds Sample.vtk o) == 3 # 4 /\
  py p - b2 (bounds Sample.vtk o) == 3 # 4 /\
  ~ px p - b0 (bounds Sample.vtk o) == 1 / resolution o /\
  ~ py p - b2 (bounds Sample.vtk o) == 1 / resolution o.
Proof.
  cbv zeta.
  split; [vm_compute; reflexivity |]. split; [vm_compute; reflexivity |].
  split; [exact sample_raster_is_exact_at_1 |].
  repeat split; try (vm_compute; reflexivity);
    intros H; vm_compute in H; discriminate H.
Qed.

(** C7, as the code has it.  For a positive resolution and positive extents,
    when the extents and their products with the resolution are values of
    type [double] (the source takes [ceil] of the rounded product) and the
    number of cells is an [int]:
    the raster has [ceil(extentX * resolution)] by [ceil(extentY * resolution)]
    cells, two sizes between 1 and [INT_MAX]; grid indices (0, 0) are sent to
    the corner [(xmin, ymin)] of the
    bounds of the projected points; grid indices [(i, j)] are sent to
    [(i * extentX / width, j * extentY / height)] from that corner, a step
    that never exceeds [1 / resolution]; and this is
    [(i / resolution, j / resolution)] when [extentX * resolution] and
    [extentY * resolution] are whole numbers. *)
Theorem raster_geometry (vtk : Library) (o : Odm25dMeshing) (i j : Z) (e : Q) :
  0 < resolution o -> 0 < extentX vtk o -> 0 < extentY vtk o ->
  raster_is_exact vtk o ->
  let p := TransformPoint (transform vtk o) (mkPoint3 (inject_Z i) (inject_Z j) e) in
  Dimensions (image vtk o) =
    (Qceiling (extentX vtk o * resolution o),
     Qceiling (extentY vtk o * resolution o), 1%Z) /\
  (0 < width vtk o <= Int32.INT_MAX)%Z /\
  (0 < height vtk o <= Int32.INT_MAX)%Z /\
  Peq (TransformPoint (transform vtk o) (mkPoint3 0 0 e))
      (mkPoint3 (b0 (bounds vtk o)) (b2 (bounds vtk o)) e) /\
  px p - b0 (bounds vtk o) == inject_Z i * (extentX vtk o / inject_Z (width vtk o)) /\
  py p - b2 (bounds vtk o) == inject_Z j * (extentY vtk o / inject_Z (height vtk o)) /\
  extentX vtk o / inject_Z (width vtk o) <= 1 / resolution o /\
  extentY vtk o / inject_Z (height vtk o) <= 1 / resolution o /\
  (extentX vtk o * resolution o == inject_Z (width vtk o) ->
   px p - b0 (bounds vtk o) == inject_Z i / resolution o) /\
  (extentY vtk o * resolution o == inject_Z (height vtk o) ->
   py p - b2 (bounds vtk o) == inject_Z j / resolution o).
Proof.
  intros Hr HX HY Hexact. cbv zeta.
  destruct (raster_has_cells vtk o Hr HX HY) as [HW HH].
  destruct (raster_fits_int vtk o HW HH Hexact) as [HWmax HHmax].
  destruct (grid_vertex vtk o i j e) as (Hx & Hy & _).
  destruct (grid_step (extentX vtk o) (resolution o) Hr HX) as [HsX HeX].
  destruct (grid_step (extentY vtk o) (resolution o) Hr HY) as [HsY HeY].
  rewrite <- width_is_ceiling in HsX, HeX.
  rewrite <- height_is_ceiling in HsY, HeY.
  assert (Hr0 : ~ resolution o == 0) by lra.
  split; [rewrite image_Dimensions, width_is_ceiling, height_is_ceiling; reflexivity |].
  split; [split; assumption |].
  split; [split; assumption |].
  split; [apply grid_origin |].
  split; [exact Hx |]. split; [exact Hy |].
  split; [exact HsX |]. split; [exact HsY |].
  split; intros Hwhole.
  - rewrite Hx. apply HeX in Hwhole. rewrite Hwhole. field. exact Hr0.
  - rewrite Hy. apply HeY in Hwhole. rewrite Hwhole. field. exact Hr0.
Qed.

(** C7, an instance: extents 3/2 at resolution 2 give a raster of 3 x 3. *)
Lemma raster_geometry_at_resolution_2 :
  let o := Sample.object Sample.shifted_points 2 1000 EmptyString in
  0 < resolution o /\ 0 < extentX Sample.vtk o /\ 0 < extentY Sample.vtk o /\
  raster_is_exact Sample.vtk o /\
  Dimensions (image Sample.vtk o) = (3, 3, 1)%Z.
Proof.
  cbv zeta.
  assert (Hr : 0 < resolution (Sample.object Sample.shifted_points 2 1000 EmptyString))
    by (vm_compute; reflexivity).
  assert (HX : 0 < extentX Sample.vtk (Sample.object Sample.shifted_points 2 1000 EmptyString))
    by (vm_compute; reflexivity).
  assert (HY : 0 < extentY Sample.vtk (Sample.object Sample.shifted_points 2 1000 EmptyString))
    by (vm_compute; reflexivity).
  split; [exact Hr |]. split; [exact HX |]. split; [exact HY |].
  split; [exact sample_raster_is_exact |].
  rewrite (proj1 (raster_geometry Sample.vtk
                    (Sample.object Sample.shifted_points 2 1000 EmptyString) 1 1 0
                    Hr HX HY sample_raster_is_exact)).
  vm_compute. reflexivity.
Defined.

Local Close Scope Q_scope.

(** ** C10: the exported DSM *)

(** C10.  When an output DSM file is configured, [buildMesh] hands the TIFF
    writer exactly one image, the raster filled from the interpolated
    elevations; the interpolation has run before that write and the smoother
    runs only after it; and the exported image is the same whatever the
    smoother computes. *)
Theorem dsm_is_exported_before_smoothing (vtk : Library) (o : Odm25dMeshing) :
  outputDsmFile o <> EmptyString ->
  (exists before after,
      trace (buildMesh vtk) o =
        before ++ TIFFWrite (outputDsmFile o) (image vtk o) :: after /\
      In (PointInterpolatorUpdate (interpolator vtk o) (PlaneSource vtk (plane vtk o)))
         before /\
      (forall f input, ~ In (DiffusionUpdate f input) before) /\
      In (DiffusionUpdate (surfaceDiffusion o) (image vtk o)) after) /\
  exported (trace (buildMesh vtk) o) = [(outputDsmFile o, image vtk o)] /\
  (forall smoother,
      exported (trace (buildMesh (with_diffusion vtk smoother)) o) =
      exported (trace (buildMesh vtk) o)).
Proof.
  intros Hfile.
  assert (Hneq : (outputDsmFile o =? EmptyString)%string = false)
    by (apply String.eqb_neq; exact Hfile).
  split; [| split].
  - run_pipeline. rewrite Hneq. cbv beta iota.
    match goal with
    | |- exists before after, ?tr = _ /\ _ =>
      exists (firstn 23 tr), (skipn 24 tr)
    end.
    cbv beta iota delta [firstn skipn app].
    split; [reflexivity |].
    split; [event_found |].
    split; [| event_found].
    intros f input H. event_cases H.
  - run_pipeline. rewrite Hneq. reflexivity.
  - intros smoother. run_pipeline. rewrite Hneq. reflexivity.
Qed.

(** C10, an instance: the image written for three points at resolution 1. *)
Lemma dsm_export_sample :
  outputDsmFile (Sample.object Sample.three_points 1 1000 "dsm.tif") <> EmptyString /\
  exported (trace (buildMesh Sample.vtk)
                  (Sample.object Sample.three_points 1 1000 "dsm.tif")) =
  [("dsm.tif"%string, mkImageData (2, 2, 1) [5; 5; 5; 5]%Q)].
Proof.
  assert (Hfile : outputDsmFile (Sample.object Sample.three_points 1 1000 "dsm.tif")
                  <> EmptyString) by discriminate.
  split; [exact Hfile |].
  rewrite (proj1 (proj2 (dsm_is_exported_before_smoothing Sample.vtk
                           (Sample.object Sample.three_points 1 1000 "dsm.tif") Hfile))).
  vm_compute. reflexivity.
Defined.


(** * Further properties of the member functions *)

(** ** Rules for [wp] *)

Lemma wp_bind {A B} (m : M A) (f : A -> M B) Q E X w :
  wp m (fun a => wp (f a) Q E X) E X w -> wp (bind m f) Q E X w.
Proof.
  unfold wp, bind. destruct (m w) as [w' [a | e | c]]; trivial.
Qed.

Lemma wp_try_catch {A} (body : M A) (handler : exn -> M A) Q E X w :
  wp body Q (fun e => wp (handler e) Q E X) X w ->
  wp (try_catch body handler) Q E X w.
Proof.
  unfold wp, try_catch. destruct (body w) as [w' [a | e | c]]; trivial.
Qed.

Lemma wp_any {A} (m : M A)
      (Q : A -> World -> Prop) (E : exn -> World -> Prop) (X : Z -> World -> Prop) w :
  (forall a w', Q a w') -> (forall e w', E e w') -> (forall c w', X c w') ->
  wp m Q E X w.
Proof.
  intros HQ HE HX. unfold wp. destruct (m w) as [w' [a | e | c]]; auto.
Qed.

Lemma wp_ret {A} (a : A) (Q : A -> World -> Prop) E X w :
  Q a w -> wp (ret a) Q E X w.
Proof. trivial. Qed.

Lemma wp_throw {A} e (Q : A -> World -> Prop) (E : exn -> World -> Prop) X w :
  E e w -> wp (throw e) Q E X w.
Proof. trivial. Qed.

Lemma wp_exit {A} c (Q : A -> World -> Prop) E (X : Z -> World -> Prop) w :
  X c w -> wp (exit c) Q E X w.
Proof. trivial. Qed.

Lemma wp_emit ev (Q : unit -> World -> Prop) E X o p evs :
  Q tt (mkWorld o p (evs ++ [ev])) -> wp (emit ev) Q E X (mkWorld o p evs).
Proof. trivial. Qed.

Lemma wp_this (Q : Odm25dMeshing -> World -> Prop) E X o p evs :
  Q o (mkWorld o p evs) -> wp this Q E X (mkWorld o p evs).
Proof. trivial. Qed.

Lemma wp_assign f (Q : unit -> World -> Prop) E X o p evs :
  Q tt (mkWorld (f o) p evs) -> wp (assign f) Q E X (mkWorld o p evs).
Proof. trivial. Qed.

Lemma wp_setIsPrintingInCout b (Q : unit -> World -> Prop) E X o p evs :
  Q tt (mkWorld o b evs) -> wp (setIsPrintingInCout b) Q E X (mkWorld o p evs).
Proof. trivial. Qed.

Lemma wp_getIsPrintingInCout (Q : bool -> World -> Prop) E X o p evs :
  Q p (mkWorld o p evs) -> wp getIsPrintingInCout Q E X (mkWorld o p evs).
Proof. trivial. Qed.

Lemma wp_ofstream fileName is_open (Q : bool -> World -> Prop) E X o p evs :
  Q is_open (mkWorld o p (evs ++ [OfstreamOpen fileName is_open])) ->
  wp (ofstream fileName is_open) Q E X (mkWorld o p evs).
Proof. trivial. Qed.

(** [printHelp] appends its lines and changes nothing else: the logger's flag
    is set back to what it was. *)
Lemma printHelp_from (o : Odm25dMeshing) (p : bool) (evs : list Event) :
  printHelp (mkWorld o p evs) = (mkWorld o p (evs ++ help_text o p), Return tt).
Proof.
  cbv beta iota zeta delta
    [help_text printHelp bind this emit log log_int log_double ret
     setIsPrintingInCout getIsPrintingInCout fst snd events self isPrintingInCout].
  rewrite <- !app_assoc. reflexivity.
Qed.

Lemma help_text_is_log (o : Odm25dMeshing) (p : bool) :
  forallb is_log (help_text o p) = true.
Proof.
  cbv beta iota zeta delta
    [help_text printHelp bind this emit log log_int log_double ret
     setIsPrintingInCout getIsPrintingInCout fst snd events self isPrintingInCout
     app forallb is_log andb].
  reflexivity.
Qed.

Lemma wp_printHelp (Q : unit -> World -> Prop) E X o p evs :
  Q tt (mkWorld o p (evs ++ help_text o p)) -> wp printHelp Q E X (mkWorld o p evs).
Proof. unfold wp. rewrite printHelp_from. trivial. Qed.

Ltac wp_world :=
  match goal with
  | |- wp _ _ _ _ ?w => is_var w; destruct w as [? ? ?]
  end.

Ltac wp_step :=
  lazymatch goal with
  | |- wp (if true then ?m else _) ?Q ?E ?X ?w => change (wp m Q E X w)
  | |- wp (if false then _ else ?m) ?Q ?E ?X ?w => change (wp m Q E X w)
  | |- wp (bind _ _) _ _ _ _ => apply wp_bind
  | |- wp (try_catch _ _) _ _ _ _ => apply wp_try_catch
  | |- wp (ret _) _ _ _ _ => apply wp_ret
  | |- wp (throw _) _ _ _ _ => apply wp_throw
  | |- wp (exit _) _ _ _ _ => apply wp_exit
  | |- wp (emit _) _ _ _ _ => apply wp_emit
  | |- wp (log _) _ _ _ _ => apply wp_emit
  | |- wp (log_int _) _ _ _ _ => apply wp_emit
  | |- wp (log_double _) _ _ _ _ => apply wp_emit
  | |- wp (printToFile _) _ _ _ _ => apply wp_emit
  | |- wp this _ _ _ _ => apply wp_this
  | |- wp (assign _) _ _ _ _ => apply wp_assign
  | |- wp (setIsPrintingInCout _) _ _ _ _ => apply wp_setIsPrintingInCout
  | |- wp getIsPrintingInCout _ _ _ _ => apply wp_getIsPrintingInCout
  | |- wp (ofstream _ _) _ _ _ _ => apply wp_ofstream
  | |- wp printHelp _ _ _ _ => apply wp_printHelp
  | |- wp (if ?c then _ else _) _ _ _ _ => destruct c eqn:?
  | |- wp (match ?r with Some _ => _ | None => _ end) _ _ _ _ => destruct r eqn:?
  | |- wp (match ?l with [] => _ | _ :: _ => _ end) _ _ _ _ => destruct l
  end.

(** ** Histories that grow by log lines and openings of output streams *)

Lemma parsed_after_refl env P (w : World) : parsed_after env P w w.
Proof. exists []. split; [symmetry; apply app_nil_r | constructor]. Qed.

Lemma parsed_after_app env P w0 o p evs l :
  Forall (parse_event env P) l ->
  parsed_after env P w0 (mkWorld o p evs) -> parsed_after env P w0 (mkWorld o p (evs ++ l)).
Proof.
  intros Hl (l0 & Hl0 & Hlog). exists (l0 ++ l). cbn [events] in *. split.
  - rewrite Hl0. symmetry. apply app_assoc.
  - apply Forall_app. split; assumption.
Qed.

Lemma parsed_after_state env P w0 o p evs o' p' :
  parsed_after env P w0 (mkWorld o p evs) -> parsed_after env P w0 (mkWorld o' p' evs).
Proof. intros (l & Hl & Hlog). exists l. split; assumption. Qed.

Lemma logs_are_parse_events env P (l : list Event) :
  forallb is_log l = true -> Forall (parse_event env P) l.
Proof.
  intros Hl. apply Forall_forall. intros ev Hev. left.
  rewrite forallb_forall in Hl. apply Hl. exact Hev.
Qed.

Lemma stage_events_of_logs (l : list Event) :
  forallb is_log l = true -> stage_events l = [].
Proof.
  unfold stage_events. induction l as [| ev l IH]; intros Hlog; [reflexivity |].
  cbn [forallb] in Hlog. apply andb_prop in Hlog. destruct Hlog as [Hev Hl].
  cbn [filter]. rewrite Hev. cbn [negb orb]. apply IH. exact Hl.
Qed.

Lemma stage_events_app (l1 l2 : list Event) :
  stage_events (l1 ++ l2) = stage_events l1 ++ stage_events l2.
Proof. apply filter_app. Qed.

Lemma stage_events_of_parse_events env P (l : list Event) :
  Forall (parse_event env P) l -> stage_events l = [].
Proof.
  unfold stage_events. induction 1 as [| ev l Hev _ IH]; [reflexivity |].
  cbn [filter].
  destruct Hev as [Hev | (path & -> & _)].
  - rewrite Hev. exact IH.
  - exact IH.
Qed.

Lemma parsed_after_stage_events env P (w0 w : World) :
  parsed_after env P w0 w -> stage_events (events w) = stage_events (events w0).
Proof.
  intros (l & -> & Hl).
  rewrite stage_events_app, (stage_events_of_parse_events env P l Hl). apply app_nil_r.
Qed.

Ltac parsed_step :=
  lazymatch goal with
  | |- parsed_after _ _ _ (mkWorld _ _ (_ ++ help_text _ _)) =>
    apply parsed_after_app;
    [apply logs_are_parse_events, help_text_is_log |]
  | |- parsed_after _ _ _ (mkWorld _ _ (_ ++ [OfstreamOpen ?fileName _])) =>
    apply parsed_after_app;
    [constructor; [right; exists fileName; split; [congruence |] | constructor] |]
  | |- parsed_after _ _ _ (mkWorld _ _ (_ ++ [_])) =>
    apply parsed_after_app; [apply logs_are_parse_events; reflexivity |]
  | H : parsed_after ?env ?P ?w0 (mkWorld _ _ ?evs)
    |- parsed_after ?env ?P ?w0 (mkWorld _ _ ?evs) =>
    eapply parsed_after_state; exact H
  end.

(** ** [parseArguments] *)

(** The invariant of the loop over the arguments: the output file the object
    names and all the arguments still to come satisfy [P]. *)
Lemma parseArguments_events (env : Environment) (P : string -> Prop) (w0 : World) (n : nat) :
  forall args w,
    (List.length args <= n)%nat ->
    (forall a, In a args -> P a) ->
    P (outputFile (self w)) ->
    parsed_after env P w0 w ->
    wp (parseArguments env args)
       (fun _ w' => parsed_after env P w0 w')
       (fun e w' => parsed_after env P w0 w' /\ exists msg, e = Odm25dMeshingException msg)
       (fun c w' => parsed_after env P w0 w' /\ c = 0)
       w.
Proof.
  induction n as [| n IH]; intros args w Hlen Hargs Hout Hw.
  - destruct args; [| cbn in Hlen; lia]. exact Hw.
  - destruct args as [| argument rest]; [exact Hw |].
    assert (Hrest : forall a, In a rest -> P a)
      by (intros a Ha; apply Hargs; right; exact Ha).
    cbn [parseArguments]. wp_world. cbn [self] in Hout.
    repeat first
      [ wp_step
      | parsed_step
      | lazymatch goal with
        | |- wp (parseArguments _ ?l) _ _ _ _ =>
          apply IH;
          [ cbn [List.length] in Hlen |- *; lia
          | intros a Ha; apply Hargs; cbn [In] in Ha |- *; tauto
          | cbn [self outputFile set_inputFile set_outputFile set_outputDsmFile
                 set_logFilePath set_maxVertexCount set_resolution
                 set_shepardNeighbors set_showDebugWindow];
            first [exact Hout | apply Hargs; cbn [In]; tauto]
          | ]
        | |- P _ =>
          cbn [outputFile set_logFilePath];
          first [exact Hout | apply Hargs; cbn [In]; tauto]
        | |- _ /\ _ => split
        | |- exists msg, _ = Odm25dMeshingException msg => eexists; reflexivity
        | |- 0 = 0 => reflexivity
        end ].
Qed.

(** X1.  [parseArguments] runs no stage and calls no writer: whatever the
    arguments and the surroundings, the history it leaves is the history it
    found followed by log lines and by openings of output streams (which
    create or empty the file opened), each of them on a path that is one of
    the arguments or the output file the object named before; what it throws
    is an [Odm25dMeshingException], and when it ends the process the code
    is 0. *)
Theorem parseArguments_logs_and_opens_streams
        (env : Environment) (args : list string) (w : World) :
  parsed_after env (fun path => In path args \/ path = outputFile (self w))
               w (fst (parseArguments env args w)) /\
  stage_events (events (fst (parseArguments env args w))) = stage_events (events w) /\
  match snd (parseArguments env args w) with
  | Return _ => True
  | Throw e => exists msg, e = Odm25dMeshingException msg
  | Exit c => c = 0
  end.
Proof.
  set (P := fun path => In path args \/ path = outputFile (self w)).
  pose proof (parseArguments_events env P w (List.length args) args w
                (Nat.le_refl _) (fun a Ha => or_introl Ha) (or_intror eq_refl)
                (parsed_after_refl env P w)) as H.
  unfold wp in H.
  destruct (parseArguments env args w) as [w' [[] | e | c]]; cbn [fst snd].
  - split; [exact H |].
    split; [apply (parsed_after_stage_events env P); exact H | exact I].
  - destruct H as [H He]. split; [exact H |].
    split; [apply (parsed_after_stage_events env P); exact H | exact He].
  - destruct H as [H Hc]. split; [exact H |].
    split; [apply (parsed_after_stage_events env P); exact H | exact Hc].
Qed.

Lemma parseArguments_stages (env : Environment) (args : list string) (w : World) :
  stage_events (events (fst (parseArguments env args w))) = stage_events (events w) /\
  match snd (parseArguments env args w) with
  | Throw e => exists msg, e = Odm25dMeshingException msg
  | _ => True
  end.
Proof.
  pose proof (parseArguments_events env (fun _ => True) w (List.length args) args w
                (Nat.le_refl _) (fun _ _ => I) I
                (parsed_after_refl env _ w)) as H.
  unfold wp in H.
  destruct (parseArguments env args w) as [w' [[] | e | c]]; cbn [fst snd].
  - split; [apply (parsed_after_stage_events env (fun _ => True)); exact H | exact I].
  - destruct H as [H He].
    split; [apply (parsed_after_stage_events env (fun _ => True)); exact H | exact He].
  - destruct H as [H Hc].
    split; [apply (parsed_after_stage_events env (fun _ => True)); exact H | exact I].
Qed.

(** *** The numeric options stay in their ranges *)

Lemma clamp_shepardNeighbors_range (v : Z) : 1 <= clamp_shepardNeighbors v <= 1000.
Proof.
  unfold clamp_shepardNeighbors, UInt.min, UInt.max, UInt.wrap.
  change UInt.modulus with 4294967296.
  pose proof (Z.mod_pos_bound v 4294967296 ltac:(lia)) as Hv.
  rewrite (Z.mod_small 1000), (Z.mod_small 1) by lia.
  rewrite (Z.mod_small (Z.max (v mod 4294967296) 1)) by lia.
  lia.
Qed.

Lemma clamp_maxVertexCount_range (v : Z) : 0 <= clamp_maxVertexCount v < 2 ^ 32.
Proof.
  unfold clamp_maxVertexCount, UInt.max, UInt.wrap.
  change UInt.modulus with 4294967296. change (2 ^ 32) with 4294967296.
  pose proof (Z.mod_pos_bound v 4294967296 ltac:(lia)) as Hv.
  rewrite (Z.mod_small 0) by lia. lia.
Qed.

Lemma clamp_maxVertexCount_fixed (v : Z) :
  0 <= v < 2 ^ 32 -> clamp_maxVertexCount v = v.
Proof.
  intros Hv. unfold clamp_maxVertexCount, UInt.max, UInt.wrap.
  change UInt.modulus with 4294967296. change (2 ^ 32) with 4294967296 in Hv.
  rewrite (Z.mod_small v), (Z.mod_small 0) by lia. lia.
Qed.

Ltac ranges_solve :=
  lazymatch goal with
  | H : in_ranges _ |- in_ranges _ =>
    unfold in_ranges in H |- *;
    cbn [self resolution shepardNeighbors maxVertexCount
         set_inputFile set_outputFile set_outputDsmFile set_logFilePath
         set_maxVertexCount set_resolution set_shepardNeighbors
         set_showDebugWindow set_points] in H |- *;
    destruct H as (? & ? & ? & ?);
    repeat split;
    first [ assumption
          | apply clamp_resolution_range
          | apply clamp_shepardNeighbors_range
          | apply clamp_maxVertexCount_range
          | tauto ]
  end.

Lemma parseArguments_ranges (env : Environment) (n : nat) :
  forall args w,
    (List.length args <= n)%nat ->
    in_ranges (self w) ->
    wp (parseArguments env args)
       (fun _ w' => in_ranges (self w'))
       (fun _ _ => True) (fun _ _ => True) w.
Proof.
  induction n as [| n IH]; intros args w Hlen Hw.
  - destruct args; [| cbn in Hlen; lia]. exact Hw.
  - destruct args as [| argument rest]; [exact Hw |].
    cbn [parseArguments]. wp_world. cbn [self] in Hw.
    repeat first
      [ wp_step
      | exact I
      | lazymatch goal with
        | |- wp (parseArguments _ _) _ _ _ _ =>
          apply IH; [cbn [List.length] in Hlen |- *; lia | cbn [self]]
        | |- in_ranges (self _) => cbn [self]
        | |- in_ranges _ => ranges_solve
        end ].
Qed.

(** X2.  When [parseArguments] returns on an object whose resolution is in
    [0.00001, 100000], whose [shepardNeighbors] is in [1, 1000] and whose
    [maxVertexCount] fits an unsigned int, the object it leaves is within the
    same ranges, whatever numbers were read from the arguments. *)
Theorem parseArguments_keeps_ranges (env : Environment) (args : list string) (w : World) :
  in_ranges (self w) ->
  snd (parseArguments env args w) = Return tt ->
  in_ranges (self (fst (parseArguments env args w))).
Proof.
  intros Hw Hret.
  pose proof (parseArguments_ranges env (List.length args) args w
                (Nat.le_refl _) Hw) as H.
  unfold wp in H.
  destruct (parseArguments env args w) as [w' r]. cbn [fst snd] in *.
  rewrite Hret in H. exact H.
Qed.

(** X2, an instance: the reads 5000000000 and 1000000 are brought back to
    1000 neighbours and a resolution of 100000. *)
Lemma parseArguments_keeps_ranges_sample :
  let w := start (Sample.object [] 20 1000 EmptyString) in
  let args := ["-resolution"; "1e6"; "-shepardNeighbors"; "5e9"]%string in
  in_ranges (self w) /\
  snd (parseArguments wide_env args w) = Return tt /\
  in_ranges (self (fst (parseArguments wide_env args w))).
Proof.
  cbv zeta.
  assert (Hw : in_ranges (self (start (Sample.object [] 20 1000 EmptyString)))).
  { unfold in_ranges. vm_compute. intuition discriminate. }
  assert (Hret : snd (parseArguments wide_env
                        ["-resolution"; "1e6"; "-shepardNeighbors"; "5e9"]%string
                        (start (Sample.object [] 20 1000 EmptyString))) = Return tt).
  { vm_compute. reflexivity. }
  split; [exact Hw |]. split; [exact Hret |].
  exact (parseArguments_keeps_ranges wide_env _ _ Hw Hret).
Defined.

(** *** Arguments that are refused *)

(** X3.  An argument that is none of the known options makes
    [parseArguments] print the help and throw "Unrecognised argument", without
    looking at the arguments after it and without changing the object. *)
Theorem unrecognised_argument
        (env : Environment) (argument : string) (rest : list string) (w : World) :
  ~ In argument known_flags ->
  parseArguments env (argument :: rest) w =
  (mkWorld (self w) (isPrintingInCout w)
           (events w ++ help_text (self w) (isPrintingInCout w)),
   Throw (Odm25dMeshingException
            ("Unrecognised argument '" ++ argument ++ "'")%string)).
Proof.
  intros Hnew.
  assert (H : forall flag, In flag known_flags -> (argument =? flag)%string = false).
  { intros flag Hflag. apply String.eqb_neq. intros ->. contradiction. }
  destruct w as [o p evs].
  cbn [parseArguments self isPrintingInCout events].
  rewrite (H "-help"%string), (H "-verbose"%string), (H "-maxVertexCount"%string),
    (H "-resolution"%string), (H "-shepardNeighbors"%string), (H "-inputFile"%string),
    (H "-outputFile"%string), (H "-outputDsmFile"%string),
    (H "-showDebugWindow"%string), (H "-logFile"%string)
    by (cbv [known_flags value_flags In]; tauto).
  unfold bind. rewrite printHelp_from. reflexivity.
Qed.

Lemma unrecognised_argument_sample :
  ~ In "-wlopIterations"%string known_flags /\
  snd (parseArguments Sample.env ["-wlopIterations"; "5"]%string
         (start (Sample.object [] 20 1000 EmptyString))) =
  Throw (Odm25dMeshingException "Unrecognised argument '-wlopIterations'").
Proof.
  assert (Hnew : ~ In "-wlopIterations"%string known_flags).
  { cbv [known_flags value_flags In]. intuition discriminate. }
  split; [exact Hnew |].
  rewrite (unrecognised_argument Sample.env "-wlopIterations" ["5"%string]
             (start (Sample.object [] 20 1000 EmptyString)) Hnew).
  reflexivity.
Defined.

(** X4.  An option that takes a value and comes last makes [parseArguments]
    throw "expects 1 more input following it", leaving the state as it was. *)
Theorem value_missing (env : Environment) (argument : string) (w : World) :
  In argument value_flags ->
  parseArguments env [argument] w = (w, Throw (expects_more argument)).
Proof.
  intros Hflag. cbv [value_flags In] in Hflag.
  repeat (destruct Hflag as [<- | Hflag]; [reflexivity |]).
  contradiction.
Qed.

Lemma value_missing_sample :
  In "-resolution"%string value_flags /\
  result (parseArguments Sample.env ["-resolution"%string])
         (Sample.object [] 20 1000 EmptyString) =
  Throw (expects_more "-resolution").
Proof.
  assert (Hflag : In "-resolution"%string value_flags).
  { cbv [value_flags In]. tauto. }
  split; [exact Hflag |].
  unfold result.
  rewrite (value_missing Sample.env "-resolution" _ Hflag). reflexivity.
Defined.

(** X5.  [-logFile path] stores the path, but the file it tries to open is the
    output file: the option is accepted exactly when the current output file
    can be opened for writing, whether or not the log file itself can. *)
Theorem logFile_opens_the_output_file (env : Environment) (path : string) (w : World) :
  logFilePath (self (fst (parseArguments env ["-logFile"; path]%string w))) = path /\
  snd (parseArguments env ["-logFile"; path]%string w) =
  (if ofstream_is_open env (outputFile (self w))
   then Return tt
   else Throw (bad_value "-logFile" ".")).
Proof.
  destruct w as [o p evs].
  cbv beta iota zeta delta
    [parseArguments String.eqb Ascii.eqb Bool.eqb bind this assign throw ret
     ofstream log emit fst snd self isPrintingInCout events set_logFilePath
     outputFile logFilePath].
  destruct o as [i out d l m r sh dbg pts].
  destruct (ofstream_is_open env out); split; reflexivity.
Qed.

(** ** [run] *)

Lemma argc_above_one (a : string) (args : list string) :
  (Z.of_nat (List.length (a :: args)) + 1 <=? 1) = false.
Proof. apply Z.leb_gt. cbn [List.length]. lia. Qed.

(** X6.  Without arguments [run] logs the path of the log file and the help
    text and returns [EXIT_SUCCESS]: nothing is parsed, loaded, meshed or
    written, the log is not printed to its file, and the object and the
    logger's flag are as before. *)
Theorem run_without_arguments (vtk : Library) (env : Environment) (o : Odm25dMeshing) :
  run vtk env [] (start o) =
  (mkWorld o false ([LogStr (logFilePath o); LogStr nl] ++ help_text o false),
   Return EXIT_SUCCESS) /\
  stage_events (trace (run vtk env []) o) = [].
Proof.
  assert (Hrun : run vtk env [] (start o) =
                 (mkWorld o false ([LogStr (logFilePath o); LogStr nl] ++ help_text o false),
                  Return EXIT_SUCCESS)).
  { unfold run, start.
    change (Z.of_nat (List.length (@nil string)) + 1 <=? 1) with true.
    cbv beta iota zeta delta [bind this log emit self isPrintingInCout events app].
    rewrite printHelp_from. reflexivity. }
  split; [exact Hrun |].
  unfold trace. rewrite Hrun. cbn [fst events].
  rewrite stage_events_app, (stage_events_of_logs _ (help_text_is_log o false)).
  reflexivity.
Qed.

(** X7.  With [-help] as the first argument [run] logs the help text and the
    process exits with code 0: the arguments after it are not looked at, no
    stage is run and the log is not printed to its file. *)
Theorem run_help (vtk : Library) (env : Environment) (rest : list string)
        (o : Odm25dMeshing) :
  run vtk env ("-help"%string :: rest) (start o) =
  (mkWorld o false ([LogStr (logFilePath o); LogStr nl] ++ help_text o false),
   Exit 0).
Proof.
  unfold run, start. rewrite argc_above_one.
  cbn [parseArguments]. rewrite String.eqb_refl.
  cbv beta iota zeta delta
    [bind try_catch this log emit exit self isPrintingInCout events app].
  rewrite printHelp_from. reflexivity.
Qed.

(** X9.  When [parseArguments] throws, [run] returns [EXIT_FAILURE]: the
    message of the exception is logged, the logger is switched to the
    console, and the log is printed to the log file the object names at that
    moment; nothing is loaded, no stage is run and no mesh or DSM is
    written. *)
Theorem run_reports_a_refused_argument
        (vtk : Library) (env : Environment) (args : list string)
        (o : Odm25dMeshing) (w1 : World) (e : exn) :
  args <> [] ->
  parseArguments env args
    (mkWorld o false [LogStr (logFilePath o); LogStr nl]) = (w1, Throw e) ->
  run vtk env args (start o) =
  (mkWorld (self w1) true
           (events w1 ++
              [LogStr (what e); LogStr nl; LogPrintToFile (logFilePath (self w1));
               LogStr "For more detailed information, see log file."; LogStr nl]),
   Return EXIT_FAILURE) /\
  stage_events (trace (run vtk env args) o) = [LogPrintToFile (logFilePath (self w1))].
Proof.
  intros Hargs Hparse.
  destruct (parseArguments_stages env args
              (mkWorld o false [LogStr (logFilePath o); LogStr nl]))
    as (Hstage & Hexn).
  rewrite Hparse in Hstage, Hexn. cbn [fst snd events] in Hstage, Hexn.
  destruct Hexn as [msg ->].
  assert (Hrun : run vtk env args (start o) =
    (mkWorld (self w1) true
       (events w1 ++
          [LogStr msg; LogStr nl; LogPrintToFile (logFilePath (self w1));
           LogStr "For more detailed information, see log file."; LogStr nl]),
     Return EXIT_FAILURE)).
  { destruct args as [| a args']; [congruence |].
    unfold run, start. rewrite argc_above_one.
    cbv beta iota zeta delta [bind this log emit self isPrintingInCout events].
    cbn [app].
    unfold try_catch.
    cbv beta iota zeta delta [bind].
    rewrite Hparse. destruct w1 as [o1 p1 evs1].
    cbv beta iota zeta delta
      [bind this log emit ret printToFile setIsPrintingInCout
       self isPrintingInCout events].
    rewrite <- !app_assoc. reflexivity. }
  split; [exact Hrun |].
  unfold trace. rewrite Hrun. cbn [fst events].
  rewrite stage_events_app, Hstage. reflexivity.
Qed.

Lemma run_reports_a_refused_argument_sample :
  let o := Sample.object [] 20 1000 EmptyString in
  let args := ["-verbose"; "-wlopIterations"; "5"]%string in
  args <> [] /\
  snd (parseArguments Sample.env args
         (mkWorld o false [LogStr (logFilePath o); LogStr nl])) =
    Throw (Odm25dMeshingException "Unrecognised argument '-wlopIterations'") /\
  result (run Sample.vtk Sample.env args) o = Return EXIT_FAILURE /\
  stage_events (trace (run Sample.vtk Sample.env args) o) = [LogPrintToFile "log.txt"].
Proof.
  cbv zeta.
  assert (Hargs : ["-verbose"; "-wlopIterations"; "5"]%string <> []) by discriminate.
  split; [exact Hargs |]. split; [vm_compute; reflexivity |].
  destruct (run_reports_a_refused_argument Sample.vtk Sample.env
              ["-verbose"; "-wlopIterations"; "5"]%string
              (Sample.object [] 20 1000 EmptyString) _ _ Hargs
              (surjective_pairing _)) as [Hrun Hstage].
  split.
  - unfold result. rewrite Hrun. reflexivity.
  - rewrite Hstage. vm_compute. reflexivity.
Defined.

(** ** [buildMesh]: the order of the stages *)

(** X10.  Apart from its log lines, [buildMesh] does the following, once each
    and in this order: it runs the outlier removal on the loaded points, the
    interpolation on the plane, writes the DSM (only when an output DSM file
    is named), runs the diffusion on the image, the decimation on the output
    of the diffusion, and writes the transformed output of the decimation to
    the output file. *)
Theorem buildMesh_stages (vtk : Library) (o : Odm25dMeshing) :
  stage_events (trace (buildMesh vtk) o) =
  [EnableSMP true;
   OutlierRemovalUpdate (removal o) (mkPolyData (points o) [] []);
   PointInterpolatorUpdate (interpolator vtk o) (PlaneSource vtk (plane vtk o))]
  ++ (if (outputDsmFile o =? EmptyString)%string then []
      else [TIFFWrite (outputDsmFile o) (image vtk o)])
  ++ [DiffusionUpdate (surfaceDiffusion o) (image vtk o);
      TerrainUpdate (terrain o)
        (ImageAnisotropicDiffusion2D vtk (surfaceDiffusion o) (image vtk o));
      PLYWrite (outputFile o)
        (TransformFilter (transform vtk o)
           (GreedyTerrainDecimation vtk (terrain o)
              (ImageAnisotropicDiffusion2D vtk (surfaceDiffusion o) (image vtk o))))].
Proof.
  run_pipeline.
  destruct (outputDsmFile o =? EmptyString)%string;
    cbv beta iota delta [stage_events filter is_log is_probe negb orb app]; reflexivity.
Qed.

(** ** [buildMesh]: filling the image *)

Lemma set_nth_length (l : list Q) (k : nat) (v : Q) :
  List.length (set_nth l k v) = List.length l.
Proof.
  revert k. induction l as [| h t IH]; intros [| k]; cbn [set_nth List.length];
    try reflexivity. rewrite IH. reflexivity.
Qed.

Lemma nth_set_nth_eq (l : list Q) (k : nat) (v d : Q) :
  (k < List.length l)%nat -> nth k (set_nth l k v) d = v.
Proof.
  revert k. induction l as [| h t IH]; intros [| k] Hk; cbn [List.length] in Hk;
    try lia; cbn [set_nth nth]; [reflexivity | apply IH; lia].
Qed.

Lemma nth_set_nth_neq (l : list Q) (k k' : nat) (v d : Q) :
  k <> k' -> nth k' (set_nth l k v) d = nth k' l d.
Proof.
  revert k k'. induction l as [| h t IH]; intros [| k] [| k'] Hk;
    cbn [set_nth nth]; try reflexivity; try congruence.
  apply IH. congruence.
Qed.

Lemma fold_store_length (kvs : list (nat * Q)) (s : list Q) :
  List.length (fold_left store kvs s) = List.length s.
Proof.
  revert s. induction kvs as [| kv kvs IH]; intros s; cbn [fold_left];
    [reflexivity |]. rewrite IH. apply set_nth_length.
Qed.

(** After a sequence of assignments, a position that was assigned, and
    always the same value, holds that value. *)
Lemma fold_store_last (kvs : list (nat * Q)) (s : list Q) (k : nat) (v d : Q) :
  (k < List.length s)%nat ->
  In (k, v) kvs ->
  (forall v', In (k, v') kvs -> v' = v) ->
  nth k (fold_left store kvs s) d = v.
Proof.
  induction kvs as [| [k' v'] kvs IH] using rev_ind; intros Hk Hin Huniq;
    [contradiction |].
  rewrite fold_left_app. cbn [fold_left]. unfold store at 1. cbn [fst snd].
  destruct (Nat.eq_dec k' k) as [-> | Hneq].
  - rewrite (Huniq v') by (apply in_or_app; right; left; reflexivity).
    apply nth_set_nth_eq. rewrite fold_store_length. exact Hk.
  - rewrite nth_set_nth_neq by exact Hneq.
    apply IH; [exact Hk | | ].
    + apply in_app_or in Hin. destruct Hin as [Hin | [Hin | []]]; [exact Hin |].
      congruence.
    + intros v'' H''. apply Huniq. apply in_or_app. left. exact H''.
Qed.

Lemma in_range (n i : Z) : In i (range n) <-> 0 <= i < n.
Proof.
  unfold range. rewrite in_map_iff. split.
  - intros (k & <- & Hk). apply in_seq in Hk. lia.
  - intros Hi. exists (Z.to_nat i). split; [lia |]. apply in_seq. lia.
Qed.

Lemma fill_as_stores (W : Z) (f : Z -> Z -> Q) (cols rows : list Z) (s : list Q) :
  fold_left
    (fun s i => fold_left (fun s j => set_nth s (Z.to_nat (j * W + i)) (f i j)) rows s)
    cols s =
  fold_left store (map (pixel W f) (list_prod cols rows)) s.
Proof.
  revert s. induction cols as [| i cols IH]; intros s; [reflexivity |].
  cbn [fold_left list_prod]. rewrite map_app, fold_left_app, IH. f_equal.
  clear IH. revert s. induction rows as [| j rows IHr]; intros s; [reflexivity |].
  cbn [fold_left map]. rewrite IHr. reflexivity.
Qed.

Lemma fill_pixel (W H : Z) (f : Z -> Z -> Q) (s : list Q) (i j : Z) (d : Q) :
  0 <= i < W -> 0 <= j < H ->
  List.length s = Z.to_nat (W * H * 1) ->
  nth (Z.to_nat (j * W + i))
      (fold_left
         (fun s i => fold_left (fun s j => set_nth s (Z.to_nat (j * W + i)) (f i j))
                               (range H) s)
         (range W) s) d = f i j.
Proof.
  intros Hi Hj Hlen. rewrite fill_as_stores.
  assert (0 <= j * W) by (apply Z.mul_nonneg_nonneg; lia).
  apply fold_store_last.
  - rewrite Hlen.
    assert (Hjw : j * W <= (H - 1) * W) by (apply Z.mul_le_mono_nonneg_r; lia).
    apply Z2Nat.inj_lt; lia.
  - apply in_map_iff. exists (i, j). split; [reflexivity |].
    apply in_prod_iff. rewrite !in_range. lia.
  - intros v' Hin. apply in_map_iff in Hin. destruct Hin as ([i' j'] & Heq & Hin).
    apply in_prod_iff in Hin. rewrite !in_range in Hin.
    unfold pixel in Heq. cbn [fst snd] in Heq. injection Heq as Hkey <-.
    assert (0 <= j' * W) by (apply Z.mul_nonneg_nonneg; lia).
    assert (j' * W + i' = j * W + i) by lia.
    assert (j' = j).
    { destruct (Z.lt_trichotomy j' j) as [Hlt | [Heq | Hgt]]; [| exact Heq |].
      - assert ((j' + 1) * W <= j * W) by (apply Z.mul_le_mono_nonneg_r; lia). lia.
      - assert ((j + 1) * W <= j' * W) by (apply Z.mul_le_mono_nonneg_r; lia). lia. }
    subst j'.
    assert (i' = i) by lia. subst i'. reflexivity.
Qed.

Lemma fold_image (A : Type) (D : Z * Z * Z)
      (step : vtkImageData -> A -> vtkImageData) (store_ : list Q -> A -> list Q)
      (l : list A) (img : vtkImageData) :
  (forall im a, Dimensions im = D ->
                Dimensions (step im a) = D /\
                ImageScalars (step im a) = store_ (ImageScalars im) a) ->
  Dimensions img = D ->
  Dimensions (fold_left step l img) = D /\
  ImageScalars (fold_left step l img) = fold_left store_ l (ImageScalars img).
Proof.
  intros Hstep. revert img.
  induction l as [| a l IH]; intros img Himg; cbn [fold_left]; [auto |].
  destruct (Hstep img a Himg) as [HD HS].
  destruct (IH (step img a) HD) as [HD' HS'].
  split; [exact HD' |]. rewrite HS', HS. reflexivity.
Qed.

Lemma image_scalars (vtk : Library) (o : Odm25dMeshing) :
  ImageScalars (image vtk o) =
  fold_left
    (fun s i =>
       fold_left
         (fun s j =>
            set_nth s (Z.to_nat (j * width vtk o + i))
                    (GetValue (interpolatedElevation vtk o)
                       (GetCellPointId (interpolatedPoly vtk o) (j * width vtk o + i) 0)))
         (range (height vtk o)) s)
    (range (width vtk o))
    (repeat 0%Q (Z.to_nat (width vtk o * height vtk o * 1))).
Proof.
  unfold image.
  apply (fold_image Z (width vtk o, height vtk o, 1)); [| reflexivity].
  intros im i Him.
  apply (fold_image Z (width vtk o, height vtk o, 1)); [| exact Him].
  intros im' j Him'. unfold SetScalar. rewrite Him'. split; reflexivity.
Qed.

(** X12.  Every pixel of the image is filled.  On a raster whose sizes the
    source computes without rounding and whose number of cells is an [int],
    for [0 <= i < width] and [0 <= j < height]: the cell index
    [j * width + i], which the source computes in [int], does not overflow;
    the image holds [width * height] values; and the value at position
    [j * width + i] is the interpolated elevation of the first point of the
    cell [j * width + i] of the interpolated plane. *)
Theorem image_is_filled (vtk : Library) (o : Odm25dMeshing) (i j : Z) :
  0 <= i < width vtk o -> 0 <= j < height vtk o ->
  raster_is_exact vtk o ->
  0 <= j * width vtk o <= Int32.INT_MAX /\
  0 <= j * width vtk o + i <= Int32.INT_MAX /\
  List.length (ImageScalars (image vtk o)) = Z.to_nat (width vtk o * height vtk o) /\
  nth (Z.to_nat (j * width vtk o + i)) (ImageScalars (image vtk o)) 0%Q =
  GetValue (interpolatedElevation vtk o)
           (GetCellPointId (interpolatedPoly vtk o) (j * width vtk o + i) 0).
Proof.
  intros Hi Hj (_ & _ & _ & _ & Hcells).
  assert (Hjw : 0 <= j * width vtk o) by (apply Z.mul_nonneg_nonneg; lia).
  assert (Hjw' : (j + 1) * width vtk o <= height vtk o * width vtk o)
    by (apply Z.mul_le_mono_nonneg_r; lia).
  split; [lia |]. split; [lia |].
  rewrite image_scalars. split.
  - rewrite fill_as_stores, fold_store_length, repeat_length.
    f_equal. lia.
  - apply (fill_pixel (width vtk o) (height vtk o)
             (fun i j => GetValue (interpolatedElevation vtk o)
                           (GetCellPointId (interpolatedPoly vtk o)
                              (j * width vtk o + i) 0))); [exact Hi | exact Hj |].
    apply repeat_length.
Qed.

Lemma image_is_filled_sample :
  let o := Sample.object Sample.shifted_points 2 1000 EmptyString in
  0 <= 2 < width Sample.vtk o /\ 0 <= 2 < height Sample.vtk o /\
  raster_is_exact Sample.vtk o /\
  nth 8 (ImageScalars (image Sample.vtk o)) 0%Q = 7%Q.
Proof.
  cbv zeta.
  assert (Hi : 0 <= 2 < width Sample.vtk (Sample.object Sample.shifted_points 2 1000 EmptyString))
    by (vm_compute; split; discriminate || reflexivity).
  assert (Hj : 0 <= 2 < height Sample.vtk (Sample.object Sample.shifted_points 2 1000 EmptyString))
    by (vm_compute; split; discriminate || reflexivity).
  split; [exact Hi |]. split; [exact Hj |].
  split; [exact sample_raster_is_exact |].
  pose proof (proj2 (proj2 (proj2 (image_is_filled Sample.vtk
                       (Sample.object Sample.shifted_points 2 1000 EmptyString)
                       2 2 Hi Hj sample_raster_is_exact)))) as H.
  vm_compute in H. vm_compute. exact H.
Defined.

(** X13.  When the bounds of the projected points are flat in x or in y
    (all points share that coordinate), the raster has no cell at all: the
    image handed to the diffusion holds no value. *)
Theorem flat_extent_gives_an_empty_image (vtk : Library) (o : Odm25dMeshing) :
  (extentX vtk o == 0 \/ extentY vtk o == 0)%Q ->
  (width vtk o = 0 \/ height vtk o = 0) /\
  ImageScalars (image vtk o) = [].
Proof.
  intros Hflat.
  assert (Hdim : width vtk o = 0 \/ height vtk o = 0).
  { destruct Hflat as [HX | HY]; [left | right].
    - rewrite width_is_ceiling, HX, Qmult_0_l. reflexivity.
    - rewrite height_is_ceiling, HY, Qmult_0_l. reflexivity. }
  split; [exact Hdim |].
  apply length_zero_iff_nil.
  rewrite image_scalars, fill_as_stores, fold_store_length, repeat_length.
  destruct Hdim as [-> | ->]; [reflexivity |].
  rewrite Z.mul_0_r. reflexivity.
Qed.

Lemma flat_extent_sample :
  let o := Sample.object [mkPoint3 1 0 5; mkPoint3 1 2 6] 1 1000 EmptyString in
  (extentX Sample.vtk o == 0 \/ extentY Sample.vtk o == 0)%Q /\
  ImageScalars (image Sample.vtk o) = [].
Proof.
  cbv zeta.
  assert (Hflat : (extentX Sample.vtk
                     (Sample.object [mkPoint3 1 0 5; mkPoint3 1 2 6] 1 1000 EmptyString) == 0 \/
                   extentY Sample.vtk
                     (Sample.object [mkPoint3 1 0 5; mkPoint3 1 2 6] 1 1000 EmptyString) == 0)%Q).
  { left. vm_compute. reflexivity. }
  split; [exact Hflat |].
  exact (proj2 (flat_extent_gives_an_empty_image Sample.vtk _ Hflat)).
Defined.

(** ** [buildMesh]: the triangle budget in unsigned arithmetic *)

(** X14.  For a [maxVertexCount] that fits an unsigned int, the budget handed
    to the decimator is even and fits an unsigned int; it is twice
    [maxVertexCount] below 2^31, and from 2^31 on the product wraps around to
    [2 * maxVertexCount - 2^32], less than [maxVertexCount] itself. *)
Theorem decimation_budget_wraps (o : Odm25dMeshing) :
  0 <= maxVertexCount o < 2 ^ 32 ->
  0 <= NumberOfTriangles (terrain o) < 2 ^ 32 /\
  NumberOfTriangles (terrain o) mod 2 = 0 /\
  (maxVertexCount o < 2 ^ 31 ->
   NumberOfTriangles (terrain o) = 2 * maxVertexCount o) /\
  (2 ^ 31 <= maxVertexCount o ->
   NumberOfTriangles (terrain o) = 2 * maxVertexCount o - 2 ^ 32 /\
   NumberOfTriangles (terrain o) < maxVertexCount o).
Proof.
  intros Hm. unfold terrain. cbn [NumberOfTriangles].
  unfold UInt.mul, UInt.wrap. change UInt.modulus with 4294967296.
  change (2 ^ 32) with 4294967296 in *. change (2 ^ 31) with 2147483648.
  set (m := maxVertexCount o) in *.
  pose proof (Z.mod_pos_bound (m * 2) 4294967296 ltac:(lia)) as Hb.
  assert (Hlow : m < 2147483648 -> (m * 2) mod 4294967296 = 2 * m).
  { intros H. rewrite Z.mod_small by lia. lia. }
  assert (Hhigh : 2147483648 <= m -> (m * 2) mod 4294967296 = 2 * m - 4294967296).
  { intros H.
    replace (m * 2) with ((2 * m - 4294967296) + 1 * 4294967296) by lia.
    rewrite Z.mod_add by lia. apply Z.mod_small. lia. }
  split; [exact Hb |]. split.
  - destruct (Z_lt_le_dec m 2147483648) as [H | H].
    + rewrite (Hlow H). rewrite Z.mul_comm. apply Z.mod_mul. lia.
    + rewrite (Hhigh H).
      replace (2 * m - 4294967296) with ((m - 2147483648) * 2) by lia.
      apply Z.mod_mul. lia.
  - split; [exact Hlow |].
    intros H. rewrite (Hhigh H). lia.
Qed.

Lemma decimation_budget_wraps_sample :
  let o := Sample.object [] 1 3000000000 EmptyString in
  0 <= maxVertexCount o < 2 ^ 32 /\
  NumberOfTriangles (terrain o) = 1705032704.
Proof.
  cbv zeta.
  assert (Hm : 0 <= maxVertexCount (Sample.object [] 1 3000000000 EmptyString) < 2 ^ 32)
    by (vm_compute; split; discriminate || reflexivity).
  split; [exact Hm |].
  destruct (decimation_budget_wraps _ Hm) as (_ & _ & _ & Hhigh).
  rewrite (proj1 (Hhigh ltac:(vm_compute; discriminate))).
  reflexivity.
Defined.

(** ** [buildMesh]: the world transform on the raster *)

Local Open Scope Q_scope.

(** X15.  For a positive resolution and positive extents the world transform
    is one-to-one: two vertices with the same image are the same vertex. *)
Theorem world_transform_is_one_to_one (vtk : Library) (o : Odm25dMeshing) (p q : Point3) :
  0 < resolution o -> 0 < extentX vtk o -> 0 < extentY vtk o ->
  Peq (TransformPoint (transform vtk o) p) (TransformPoint (transform vtk o) q) ->
  Peq p q.
Proof.
  intros Hr HX HY (Hx & Hy & Hz).
  destruct (scale_positive vtk o Hr HX HY) as (_ & _ & HsX & HsY).
  destruct (transform_point vtk o p) as (Hpx & Hpy & Hpz).
  destruct (transform_point vtk o q) as (Hqx & Hqy & Hqz).
  rewrite Hpx, Hqx in Hx. rewrite Hpy, Hqy in Hy. rewrite Hpz, Hqz in Hz.
  unfold scale_then_translate, translate_point, scale_point in Hx, Hy, Hz.
  cbn [px py pz] in Hx, Hy, Hz.
  revert Hx Hy HsX HsY.
  generalize (extentX vtk o / inject_Z (width vtk o))
             (extentY vtk o / inject_Z (height vtk o))
             (- extentX vtk o / 2 + px (center vtk o))
             (- extentY vtk o / 2 + py (center vtk o)).
  intros sx sy tx ty Hx Hy HsX HsY.
  unfold Peq. split; [| split].
  - apply (Qmult_inj_r (px p) (px q) sx); [lra |].
    apply (Qplus_inj_r _ _ tx). exact Hx.
  - apply (Qmult_inj_r (py p) (py q) sy); [lra |].
    apply (Qplus_inj_r _ _ ty). exact Hy.
  - rewrite !Qmult_1_r, !Qplus_0_r in Hz. exact Hz.
Qed.

Lemma world_transform_is_one_to_one_sample :
  let o := Sample.object Sample.shifted_points 2 1000 EmptyString in
  0 < resolution o /\ 0 < extentX Sample.vtk o /\ 0 < extentY Sample.vtk o /\
  Peq (mkPoint3 1 2 5) (mkPoint3 (2 # 2) (4 # 2) (10 # 2)).
Proof.
  cbv zeta.
  assert (Hr : 0 < resolution (Sample.object Sample.shifted_points 2 1000 EmptyString))
    by (vm_compute; reflexivity).
  assert (HX : 0 < extentX Sample.vtk (Sample.object Sample.shifted_points 2 1000 EmptyString))
    by (vm_compute; reflexivity).
  assert (HY : 0 < extentY Sample.vtk (Sample.object Sample.shifted_points 2 1000 EmptyString))
    by (vm_compute; reflexivity).
  split; [exact Hr |]. split; [exact HX |]. split; [exact HY |].
  apply (world_transform_is_one_to_one Sample.vtk
           (Sample.object Sample.shifted_points 2 1000 EmptyString) _ _ Hr HX HY).
  unfold Peq. vm_compute. repeat split.
Defined.

(** X16.  For a positive resolution and positive extents, every position of
    the raster, [0 <= i <= width - 1] and [0 <= j <= height - 1], is sent
    inside the bounds of the projected points, at least one step short of
    their far edges [xmax] and [ymax]. *)
Theorem raster_stays_inside_the_bounds
        (vtk : Library) (o : Odm25dMeshing) (i j : Z) (e : Q) :
  0 < resolution o -> 0 < extentX vtk o -> 0 < extentY vtk o ->
  (0 <= i <= width vtk o - 1)%Z -> (0 <= j <= height vtk o - 1)%Z ->
  let p := TransformPoint (transform vtk o) (mkPoint3 (inject_Z i) (inject_Z j) e) in
  b0 (bounds vtk o) <= px p /\
  px p <= b1 (bounds vtk o) - extentX vtk o / inject_Z (width vtk o) /\
  px p < b1 (bounds vtk o) /\
  b2 (bounds vtk o) <= py p /\
  py p <= b3 (bounds vtk o) - extentY vtk o / inject_Z (height vtk o) /\
  py p < b3 (bounds vtk o).
Proof.
  intros Hr HX HY Hi Hj. cbv zeta.
  destruct (scale_positive vtk o Hr HX HY) as (HW & HH & HsX & HsY).
  destruct (grid_vertex vtk o i j e) as (Hx & Hy & _).
  assert (HeX : extentX vtk o / inject_Z (width vtk o) * inject_Z (width vtk o)
                == b1 (bounds vtk o) - b0 (bounds vtk o)).
  { unfold extentX at 1. field. lra. }
  assert (HeY : extentY vtk o / inject_Z (height vtk o) * inject_Z (height vtk o)
                == b3 (bounds vtk o) - b2 (bounds vtk o)).
  { unfold extentY at 1. field. lra. }
  assert (Hi0 : 0 <= inject_Z i) by (change 0 with (inject_Z 0); rewrite <- Zle_Qle; lia).
  assert (Hj0 : 0 <= inject_Z j) by (change 0 with (inject_Z 0); rewrite <- Zle_Qle; lia).
  assert (Hi1 : inject_Z i <= inject_Z (width vtk o) - 1).
  { change 1 with (inject_Z 1). unfold Qminus. rewrite <- inject_Z_opp, <- inject_Z_plus.
    rewrite <- Zle_Qle. lia. }
  assert (Hj1 : inject_Z j <= inject_Z (height vtk o) - 1).
  { change 1 with (inject_Z 1). unfold Qminus. rewrite <- inject_Z_opp, <- inject_Z_plus.
    rewrite <- Zle_Qle. lia. }
  set (sx := extentX vtk o / inject_Z (width vtk o)) in *.
  set (sy := extentY vtk o / inject_Z (height vtk o)) in *.
  set (W := inject_Z (width vtk o)) in *.
  set (H := inject_Z (height vtk o)) in *.
  set (qi := inject_Z i) in *. set (qj := inject_Z j) in *.
  clearbody sx sy W H qi qj.
  assert (Hix : 0 <= qi * sx) by (apply Qmult_le_0_compat; lra).
  assert (Hjy : 0 <= qj * sy) by (apply Qmult_le_0_compat; lra).
  assert (Hix' : qi * sx <= (W - 1) * sx) by (apply Qmult_le_compat_r; lra).
  assert (Hjy' : qj * sy <= (H - 1) * sy) by (apply Qmult_le_compat_r; lra).
  repeat split; lra.
Qed.

Lemma raster_stays_inside_the_bounds_sample :
  let o := Sample.object Sample.shifted_points 2 1000 EmptyString in
  let p := TransformPoint (transform Sample.vtk o) (mkPoint3 2 2 0) in
  0 < resolution o /\ 0 < extentX Sample.vtk o /\ 0 < extentY Sample.vtk o /\
  (0 <= 2 <= width Sample.vtk o - 1)%Z /\ (0 <= 2 <= height Sample.vtk o - 1)%Z /\
  px p < b1 (bounds Sample.vtk o).
Proof.
  cbv zeta.
  assert (Hr : 0 < resolution (Sample.object Sample.shifted_points 2 1000 EmptyString))
    by (vm_compute; reflexivity).
  assert (HX : 0 < extentX Sample.vtk (Sample.object Sample.shifted_points 2 1000 EmptyString))
    by (vm_compute; reflexivity).
  assert (HY : 0 < extentY Sample.vtk (Sample.object Sample.shifted_points 2 1000 EmptyString))
    by (vm_compute; reflexivity).
  assert (Hi : (0 <= 2 <= width Sample.vtk
                  (Sample.object Sample.shifted_points 2 1000 EmptyString) - 1)%Z)
    by (vm_compute; split; discriminate).
  assert (Hj : (0 <= 2 <= height Sample.vtk
                  (Sample.object Sample.shifted_points 2 1000 EmptyString) - 1)%Z)
    by (vm_compute; split; discriminate).
  split; [exact Hr |]. split; [exact HX |]. split; [exact HY |].
  split; [exact Hi |]. split; [exact Hj |].
  exact (proj1 (proj2 (proj2
           (raster_stays_inside_the_bounds Sample.vtk
              (Sample.object Sample.shifted_points 2 1000 EmptyString)
              2 2 0 Hr HX HY Hi Hj)))).
Defined.

Local Close Scope Q_scope.

(** ** [loadPointCloud] *)

Lemma scan_fields_run (fs : list Pcl.PCLPointField)
      (posX posY posZ : option Pcl.PCLPointField)
      (o : Odm25dMeshing) (p : bool) (evs : list Event) :
  Pcl.scan_fields fs (posX, posY, posZ) (mkWorld o p evs) =
  (mkWorld o p (evs ++ scan_log fs),
   Return (last_named "x" fs posX, last_named "y" fs posY, last_named "z" fs posZ)).
Proof.
  revert posX posY posZ evs.
  induction fs as [| f fs IH]; intros posX posY posZ evs.
  - cbn [Pcl.scan_fields scan_log last_named]. rewrite app_nil_r. reflexivity.
  - cbn [Pcl.scan_fields scan_log last_named].
    destruct (Pcl.name f =? "x")%string eqn:Ex.
    + apply String.eqb_eq in Ex.
      cbv beta iota zeta delta [bind log emit self isPrintingInCout events].
      rewrite IH, <- !app_assoc, Ex. reflexivity.
    + destruct (Pcl.name f =? "y")%string eqn:Ey.
      * apply String.eqb_eq in Ey.
        cbv beta iota zeta delta [bind log emit self isPrintingInCout events].
        rewrite IH, <- !app_assoc, Ey. reflexivity.
      * destruct (Pcl.name f =? "z")%string eqn:Ez.
        -- cbv beta iota zeta delta [bind log emit self isPrintingInCout events].
           rewrite IH, <- !app_assoc. reflexivity.
        -- rewrite IH. reflexivity.
Qed.

Lemma last_named_absent (n : string) (fs : list Pcl.PCLPointField) :
  (forall f, In f fs -> Pcl.name f <> n) -> last_named n fs None = None.
Proof.
  induction fs as [| f fs IH]; intros Habs; [reflexivity |].
  cbn [last_named].
  rewrite (proj2 (String.eqb_neq _ _) (Habs f (or_introl eq_refl))).
  apply IH. intros g Hg. apply Habs. right. exact Hg.
Qed.

Lemma last_named_tail (n : string) (fs : list Pcl.PCLPointField)
      (init : option Pcl.PCLPointField) :
  (forall f, In f fs -> Pcl.name f <> n) -> last_named n fs init = init.
Proof.
  revert init. induction fs as [| f fs IH]; intros init Habs; [reflexivity |].
  cbn [last_named].
  rewrite (proj2 (String.eqb_neq _ _) (Habs f (or_introl eq_refl))).
  apply IH. intros g Hg. apply Habs. right. exact Hg.
Qed.

Lemma last_named_app (n : string) (fs1 fs2 : list Pcl.PCLPointField)
      (init : option Pcl.PCLPointField) :
  last_named n (fs1 ++ fs2) init = last_named n fs2 (last_named n fs1 init).
Proof.
  revert init. induction fs1 as [| f fs1 IH]; intros init; [reflexivity |].
  cbn [app last_named]. apply IH.
Qed.

Lemma last_named_last
      (n : string) (before after : list Pcl.PCLPointField) (f : Pcl.PCLPointField) :
  Pcl.name f = n ->
  (forall g, In g after -> Pcl.name g <> n) ->
  last_named n (before ++ f :: after) None = Some f.
Proof.
  intros Hname Hafter.
  rewrite last_named_app. cbn [last_named].
  rewrite (proj2 (String.eqb_eq _ _) Hname).
  apply last_named_tail. exact Hafter.
Qed.

(** What the scan found, read back from its result. *)
Lemma scan_found (fs : list Pcl.PCLPointField) (w : World)
      (posX posY posZ : option Pcl.PCLPointField) :
  snd (Pcl.scan_fields fs (None, None, None) w) = Return (posX, posY, posZ) ->
  last_named "x" fs None = posX /\
  last_named "y" fs None = posY /\
  last_named "z" fs None = posZ.
Proof.
  destruct w as [o p evs]. rewrite scan_fields_run. cbn [snd].
  intros H. injection H as <- <- <-. repeat split.
Qed.

(** X17.  The scan keeps, for each of the names "x", "y" and "z", the last
    field of the blob that bears it: a field named "x" (or "y", or "z") that
    no other field of that name follows is the one the scan returns for that
    coordinate, whatever comes before it; and the scan always returns. *)
Theorem scan_keeps_the_last_field
        (before after : list Pcl.PCLPointField) (f : Pcl.PCLPointField) (w : World) :
  (forall g, In g after -> Pcl.name g <> Pcl.name f) ->
  match snd (Pcl.scan_fields (before ++ f :: after) (None, None, None) w) with
  | Return (posX, posY, posZ) =>
    (Pcl.name f = "x"%string -> posX = Some f) /\
    (Pcl.name f = "y"%string -> posY = Some f) /\
    (Pcl.name f = "z"%string -> posZ = Some f)
  | _ => False
  end.
Proof.
  intros Hafter. destruct w as [o p evs]. rewrite scan_fields_run. cbn [snd].
  repeat split; intros Hname; apply last_named_last; try exact Hname;
    rewrite <- Hname; exact Hafter.
Qed.

Lemma scan_keeps_the_last_field_sample :
  let fx1 := Pcl.mkField "x" 0 Pcl.FLOAT32 in
  let fy := Pcl.mkField "y" 4 Pcl.FLOAT32 in
  let fx2 := Pcl.mkField "x" 8 Pcl.FLOAT64 in
  let fn := Pcl.mkField "nx" 16 Pcl.FLOAT32 in
  (forall g, In g [fn] -> Pcl.name g <> Pcl.name fx2) /\
  snd (Pcl.scan_fields ([fx1; fy] ++ fx2 :: [fn]) (None, None, None)
         (start (Sample.object [] 1 1000 EmptyString))) =
  Return (Some fx2, Some fy, None).
Proof.
  cbv zeta.
  assert (Hafter : forall g, In g [Pcl.mkField "nx" 16 Pcl.FLOAT32] ->
                             Pcl.name g <> Pcl.name (Pcl.mkField "x" 8 Pcl.FLOAT64)).
  { intros g [<- | []]. discriminate. }
  split; [exact Hafter |].
  pose proof (scan_keeps_the_last_field
                [Pcl.mkField "x" 0 Pcl.FLOAT32; Pcl.mkField "y" 4 Pcl.FLOAT32]
                [Pcl.mkField "nx" 16 Pcl.FLOAT32]
                (Pcl.mkField "x" 8 Pcl.FLOAT64)
                (start (Sample.object [] 1 1000 EmptyString)) Hafter) as H.
  vm_compute in H. vm_compute. reflexivity.
Defined.

(** [open_cloud] from any state, when the file was read. *)
Lemma open_cloud_run (files : Pcl.Files) (o : Odm25dMeshing) (p : bool)
      (evs : list Event) (code : Z) (blob : Pcl.PCLPointCloud2) :
  Pcl.loadPLYFile files (inputFile o) = (code, blob) ->
  code <> -1 ->
  Pcl.open_cloud files (mkWorld o p evs) =
  (mkWorld o p (evs ++ open_log blob),
   match last_named "x" (Pcl.fields blob) None,
         last_named "y" (Pcl.fields blob) None,
         last_named "z" (Pcl.fields blob) None with
   | Some posX, Some posY, Some posZ =>
     if negb (Pcl.datatype posX =? Pcl.FLOAT32) && negb (Pcl.datatype posX =? Pcl.FLOAT64)
     then Throw unsupported_type
     else Return (blob, posX, posY, posZ)
   | _, _, _ => Throw positions_missing
   end).
Proof.
  intros Hload Hcode.
  unfold Pcl.open_cloud, open_log.
  cbv beta iota zeta delta [bind log emit this self isPrintingInCout events].
  rewrite Hload. cbv beta iota.
  rewrite (proj2 (Z.eqb_neq _ _) Hcode).
  cbv beta iota zeta delta [ret bind].
  rewrite scan_fields_run.
  cbv beta iota zeta delta [self isPrintingInCout events].
  rewrite <- !app_assoc. cbn [app].
  destruct (last_named "x" (Pcl.fields blob) None) as [posX |];
    destruct (last_named "y" (Pcl.fields blob) None) as [posY |];
    destruct (last_named "z" (Pcl.fields blob) None) as [posZ |];
    try reflexivity.
  destruct (negb (Pcl.datatype posX =? Pcl.FLOAT32) &&
            negb (Pcl.datatype posX =? Pcl.FLOAT64)); reflexivity.
Qed.

Lemma point_offsets_run (step size : Z) (fuel : nat) :
  0 < step ->
  forall at_,
    (Z.to_nat (size - at_) <= fuel)%nat ->
    Pcl.point_offsets fuel at_ size step =
    Some (map (fun k => at_ + Z.of_nat k * step)
              (seq 0 (Z.to_nat ((size - at_ + step - 1) / step)))).
Proof.
  intros Hstep.
  assert (Hdone : forall at_, size <= at_ ->
                              Z.to_nat ((size - at_ + step - 1) / step) = 0%nat).
  { intros at_ Hat.
    assert ((size - at_ + step - 1) / step < 1)
      by (apply Z.div_lt_upper_bound; lia).
    lia. }
  induction fuel as [| fuel IH]; intros at_ Hfuel.
  - cbn [Pcl.point_offsets]. destruct (Z.ltb_spec at_ size) as [Hlt | Hge]; [lia |].
    rewrite (Hdone at_ Hge). reflexivity.
  - cbn [Pcl.point_offsets]. destruct (Z.ltb_spec at_ size) as [Hlt | Hge].
    + rewrite IH by lia.
      assert (Hq : (size - at_ + step - 1) / step
                   = (size - (at_ + step) + step - 1) / step + 1).
      { replace (size - at_ + step - 1)
          with ((size - (at_ + step) + step - 1) + 1 * step) by lia.
        apply Z.div_add. lia. }
      assert (Hq0 : 0 <= (size - (at_ + step) + step - 1) / step)
        by (apply Z.div_pos; lia).
      rewrite Hq, Z2Nat.inj_add, Nat.add_1_r by lia.
      cbn [seq map]. rewrite <- seq_shift, map_map.
      f_equal. f_equal; [lia |].
      apply map_ext. intros k. lia.
    + rewrite (Hdone at_ Hge). reflexivity.
Qed.

Lemma point_offsets_stuck (size : Z) (fuel : nat) :
  forall at_, at_ < size -> Pcl.point_offsets fuel at_ size 0 = None.
Proof.
  induction fuel as [| fuel IH]; intros at_ Hat; cbn [Pcl.point_offsets];
    rewrite (proj2 (Z.ltb_lt _ _) Hat); [reflexivity |].
  rewrite Z.add_0_r, (IH at_ Hat). reflexivity.
Qed.

Lemma read_points_run (files : Pcl.Files) (blob : Pcl.PCLPointCloud2)
      (posX posY posZ : Pcl.PCLPointField) (offsets : list Z) :
  Pcl.datatype posX = Pcl.FLOAT32 \/ Pcl.datatype posX = Pcl.FLOAT64 ->
  forall o p evs,
    Pcl.read_points files blob posX posY posZ offsets (mkWorld o p evs) =
    (mkWorld (set_points
                (points o ++ map (decoded_point files blob posX posY posZ) offsets) o)
             p evs,
     Return tt).
Proof.
  intros Htype.
  assert (Hpoint : forall at_ o p evs,
             Pcl.read_point files blob posX posY posZ at_ (mkWorld o p evs) =
             (mkWorld (set_points
                         (points o ++ [decoded_point files blob posX posY posZ at_]) o)
                      p evs, Return tt)).
  { intros at_ o p evs. unfold Pcl.read_point, decoded_point.
    destruct Htype as [H | H]; rewrite H; reflexivity. }
  induction offsets as [| at_ rest IH]; intros o p evs.
  - cbn [Pcl.read_points map]. rewrite app_nil_r. destruct o. reflexivity.
  - cbn [Pcl.read_points map]. unfold bind. rewrite Hpoint, IH.
    unfold set_points. cbn [points inputFile outputFile outputDsmFile logFilePath
                             maxVertexCount resolution shepardNeighbors showDebugWindow].
    rewrite <- app_assoc. reflexivity.
Qed.

Lemma open_cloud_unreadable (files : Pcl.Files) (o : Odm25dMeshing) (p : bool)
      (evs : list Event) :
  fst (Pcl.loadPLYFile files (inputFile o)) = -1 ->
  Pcl.open_cloud files (mkWorld o p evs) =
  (mkWorld o p (evs ++ [LogStr "Loading point cloud... "]), Throw (load_error o)).
Proof.
  intros Hcode. unfold Pcl.open_cloud.
  cbv beta iota zeta delta [bind log emit this self isPrintingInCout events].
  destruct (Pcl.loadPLYFile files (inputFile o)) as [code blob].
  cbn [fst] in Hcode. subst code. reflexivity.
Qed.

(** X18.  When PCL cannot read the input file (return code -1),
    [loadPointCloud] throws "Error when reading from: " followed by the path,
    having logged one line; the object keeps the points it had. *)
Theorem loadPointCloud_unreadable_file (files : Pcl.Files) (w : World) :
  fst (Pcl.loadPLYFile files (inputFile (self w))) = -1 ->
  Pcl.loadPointCloud files w =
  Some (mkWorld (self w) (isPrintingInCout w)
                (events w ++ [LogStr "Loading point cloud... "]),
        Throw (load_error (self w))).
Proof.
  intros Hcode. destruct w as [o p evs]. cbn [self isPrintingInCout events] in *.
  unfold Pcl.loadPointCloud. rewrite (open_cloud_unreadable files o p evs Hcode).
  reflexivity.
Qed.

Lemma loadPointCloud_unreadable_file_sample :
  let w := start (set_inputFile "nowhere.ply" (Sample.object [] 1 1000 EmptyString)) in
  fst (Pcl.loadPLYFile sample_files (inputFile (self w))) = -1 /\
  Pcl.loadPointCloud sample_files w =
  Some (mkWorld (self w) false [LogStr "Loading point cloud... "],
        Throw (Odm25dMeshingException "Error when reading from: nowhere.ply")).
Proof.
  cbv zeta. split; [reflexivity |].
  rewrite (loadPointCloud_unreadable_file sample_files
             (start (set_inputFile "nowhere.ply" (Sample.object [] 1 1000 EmptyString)))
             eq_refl).
  reflexivity.
Defined.

(** X19.  When the blob has no field named "x", or none named "y", or none
    named "z", [loadPointCloud] throws "Position attributes (x,y,z) missing
    from input" after the scan; no point is read and the object is as
    before. *)
Theorem loadPointCloud_missing_position
        (files : Pcl.Files) (w : World) (code : Z) (blob : Pcl.PCLPointCloud2) :
  Pcl.loadPLYFile files (inputFile (self w)) = (code, blob) ->
  code <> -1 ->
  (exists n, In n ["x"; "y"; "z"]%string /\
             forall f, In f (Pcl.fields blob) -> Pcl.name f <> n) ->
  Pcl.loadPointCloud files w =
  Some (mkWorld (self w) (isPrintingInCout w) (events w ++ open_log blob),
        Throw positions_missing).
Proof.
  intros Hload Hcode (n & Hn & Habs). destruct w as [o p evs].
  cbn [self isPrintingInCout events] in *.
  unfold Pcl.loadPointCloud. rewrite (open_cloud_run files o p evs code blob Hload Hcode).
  apply last_named_absent in Habs.
  destruct Hn as [<- | [<- | [<- | []]]]; rewrite Habs.
  - reflexivity.
  - destruct (last_named "x" (Pcl.fields blob) None); reflexivity.
  - destruct (last_named "x" (Pcl.fields blob) None);
      destruct (last_named "y" (Pcl.fields blob) None); reflexivity.
Qed.

Lemma loadPointCloud_missing_position_sample :
  let w := start (set_inputFile "flat.ply" (Sample.object [] 1 1000 EmptyString)) in
  snd (Pcl.loadPLYFile sample_files (inputFile (self w))) =
    sample_blob [Pcl.mkField "x" 0 Pcl.FLOAT32; Pcl.mkField "y" 4 Pcl.FLOAT32] 12 /\
  option_map snd (Pcl.loadPointCloud sample_files w) = Some (Throw positions_missing).
Proof.
  cbv zeta. split; [reflexivity |].
  rewrite (loadPointCloud_missing_position sample_files
             (start (set_inputFile "flat.ply" (Sample.object [] 1 1000 EmptyString)))
             0 (sample_blob [Pcl.mkField "x" 0 Pcl.FLOAT32;
                             Pcl.mkField "y" 4 Pcl.FLOAT32] 12)
             eq_refl ltac:(discriminate)).
  - reflexivity.
  - exists "z"%string. split; [right; right; left; reflexivity |].
    intros f [<- | [<- | []]]; discriminate.
Defined.

(** X20.  When the three fields are there but the type of the field "x" is
    neither FLOAT32 nor FLOAT64, [loadPointCloud] throws "Only float and
    float64 types are supported for position information"; the types of the
    fields "y" and "z" are not looked at. *)
Theorem loadPointCloud_unsupported_type
        (files : Pcl.Files) (w : World) (code : Z) (blob : Pcl.PCLPointCloud2)
        (posX posY posZ : Pcl.PCLPointField) :
  Pcl.loadPLYFile files (inputFile (self w)) = (code, blob) ->
  code <> -1 ->
  snd (Pcl.scan_fields (Pcl.fields blob) (None, None, None) w) =
    Return (Some posX, Some posY, Some posZ) ->
  Pcl.datatype posX <> Pcl.FLOAT32 -> Pcl.datatype posX <> Pcl.FLOAT64 ->
  Pcl.loadPointCloud files w =
  Some (mkWorld (self w) (isPrintingInCout w) (events w ++ open_log blob),
        Throw unsupported_type).
Proof.
  intros Hload Hcode Hscan H32 H64.
  destruct (scan_found _ _ _ _ _ Hscan) as (HX & HY & HZ). destruct w as [o p evs].
  cbn [self isPrintingInCout events] in *.
  unfold Pcl.loadPointCloud. rewrite (open_cloud_run files o p evs code blob Hload Hcode).
  rewrite HX, HY, HZ.
  rewrite (proj2 (Z.eqb_neq _ _) H32), (proj2 (Z.eqb_neq _ _) H64). reflexivity.
Qed.

Lemma loadPointCloud_unsupported_type_sample :
  let w := start (set_inputFile "int.ply" (Sample.object [] 1 1000 EmptyString)) in
  Pcl.datatype (Pcl.mkField "x" 0 5) <> Pcl.FLOAT32 /\
  Pcl.datatype (Pcl.mkField "x" 0 5) <> Pcl.FLOAT64 /\
  option_map snd (Pcl.loadPointCloud sample_files w) = Some (Throw unsupported_type).
Proof.
  cbv zeta. split; [discriminate |]. split; [discriminate |].
  rewrite (loadPointCloud_unsupported_type sample_files
             (start (set_inputFile "int.ply" (Sample.object [] 1 1000 EmptyString)))
             0 _ (Pcl.mkField "x" 0 5) (Pcl.mkField "y" 4 5) (Pcl.mkField "z" 8 5)
             eq_refl ltac:(discriminate) eq_refl
             ltac:(discriminate) ltac:(discriminate)).
  reflexivity.
Defined.

(** X21.  When the file is read, the three fields are there, the field "x" is
    a float or a double and a point takes [point_step > 0] bytes,
    [loadPointCloud] returns, having appended to the points of the object one
    point for every multiple of [point_step] below the size of the data:
    [ceil(size / point_step)] points, a last incomplete one included.  The
    coordinates are all read as the type of the field "x", and the number
    logged is that of all the points of the object. *)
Theorem loadPointCloud_reads_every_point
        (files : Pcl.Files) (w : World) (code : Z) (blob : Pcl.PCLPointCloud2)
        (posX posY posZ : Pcl.PCLPointField) :
  Pcl.loadPLYFile files (inputFile (self w)) = (code, blob) ->
  code <> -1 ->
  snd (Pcl.scan_fields (Pcl.fields blob) (None, None, None) w) =
    Return (Some posX, Some posY, Some posZ) ->
  Pcl.datatype posX = Pcl.FLOAT32 \/ Pcl.datatype posX = Pcl.FLOAT64 ->
  0 < Pcl.point_step blob ->
  let size := Z.of_nat (List.length (Pcl.data blob)) in
  let count := Z.to_nat ((size + Pcl.point_step blob - 1) / Pcl.point_step blob) in
  let loaded :=
    points (self w) ++
    map (fun k => decoded_point files blob posX posY posZ
                    (Z.of_nat k * Pcl.point_step blob))
        (seq 0 count) in
  Pcl.loadPointCloud files w =
  Some (mkWorld (set_points loaded (self w)) (isPrintingInCout w)
                (events w ++ open_log blob ++ loaded_log loaded),
        Return tt).
Proof.
  intros Hload Hcode Hscan Htype Hstep. cbv zeta.
  destruct (scan_found _ _ _ _ _ Hscan) as (HX & HY & HZ). destruct w as [o p evs].
  cbn [self isPrintingInCout events] in *.
  unfold Pcl.loadPointCloud. rewrite (open_cloud_run files o p evs code blob Hload Hcode).
  rewrite HX, HY, HZ.
  assert (Hok : negb (Pcl.datatype posX =? Pcl.FLOAT32) &&
                negb (Pcl.datatype posX =? Pcl.FLOAT64) = false).
  { destruct Htype as [H | H]; rewrite H; reflexivity. }
  rewrite Hok.
  rewrite (point_offsets_run (Pcl.point_step blob) _ _ Hstep 0) by lia.
  rewrite Z.sub_0_r.
  unfold bind at 1. rewrite (read_points_run files blob posX posY posZ _ Htype).
  cbv beta iota zeta delta [bind log log_int emit this self isPrintingInCout events].
  unfold loaded_log. cbn [points set_points].
  rewrite map_map, <- !app_assoc. reflexivity.
Qed.

Lemma loadPointCloud_reads_every_point_sample :
  let w := start (Sample.object [] 1 1000 EmptyString) in
  0 < Pcl.point_step (sample_blob xyz_fields 12) /\
  option_map (fun r => points (self (fst r))) (Pcl.loadPointCloud sample_files w) =
  Some [mkPoint3 0 4 8; mkPoint3 12 16 20; mkPoint3 24 28 32].
Proof.
  cbv zeta. split; [reflexivity |].
  rewrite (loadPointCloud_reads_every_point sample_files
             (start (Sample.object [] 1 1000 EmptyString))
             0 (sample_blob xyz_fields 12)
             (Pcl.mkField "x" 0 Pcl.FLOAT32) (Pcl.mkField "y" 4 Pcl.FLOAT32)
             (Pcl.mkField "z" 8 Pcl.FLOAT32)
             eq_refl ltac:(discriminate) eq_refl
             (or_introl eq_refl) eq_refl).
  vm_compute. reflexivity.
Defined.

(** X22.  When the blob holds data but declares points of 0 bytes, the loop
    over the points never gets past the first byte: whatever the number of
    rounds it is given it has not ended, and [loadPointCloud] does not
    end. *)
Theorem loadPointCloud_zero_point_step
        (files : Pcl.Files) (w : World) (code : Z) (blob : Pcl.PCLPointCloud2)
        (posX posY posZ : Pcl.PCLPointField) :
  Pcl.loadPLYFile files (inputFile (self w)) = (code, blob) ->
  code <> -1 ->
  snd (Pcl.scan_fields (Pcl.fields blob) (None, None, None) w) =
    Return (Some posX, Some posY, Some posZ) ->
  Pcl.datatype posX = Pcl.FLOAT32 \/ Pcl.datatype posX = Pcl.FLOAT64 ->
  Pcl.point_step blob = 0 -> Pcl.data blob <> [] ->
  (forall fuel,
      Pcl.point_offsets fuel 0 (Z.of_nat (List.length (Pcl.data blob)))
                        (Pcl.point_step blob) = None) /\
  Pcl.loadPointCloud files w = None.
Proof.
  intros Hload Hcode Hscan Htype Hstep Hdata.
  destruct (scan_found _ _ _ _ _ Hscan) as (HX & HY & HZ).
  assert (Hsize : 0 < Z.of_nat (List.length (Pcl.data blob))).
  { destruct (Pcl.data blob); [congruence | cbn [List.length]; lia]. }
  assert (Hstuck : forall fuel,
             Pcl.point_offsets fuel 0 (Z.of_nat (List.length (Pcl.data blob)))
                               (Pcl.point_step blob) = None).
  { intros fuel. rewrite Hstep. apply point_offsets_stuck. exact Hsize. }
  split; [exact Hstuck |].
  destruct w as [o p evs]. cbn [self isPrintingInCout events] in *.
  unfold Pcl.loadPointCloud. rewrite (open_cloud_run files o p evs code blob Hload Hcode).
  rewrite HX, HY, HZ.
  assert (Hok : negb (Pcl.datatype posX =? Pcl.FLOAT32) &&
                negb (Pcl.datatype posX =? Pcl.FLOAT64) = false).
  { destruct Htype as [H | H]; rewrite H; reflexivity. }
  rewrite Hok, Hstuck. reflexivity.
Qed.

Lemma loadPointCloud_zero_point_step_sample :
  let w := start (set_inputFile "stuck.ply" (Sample.object [] 1 1000 EmptyString)) in
  Pcl.point_step (sample_blob xyz_fields 0) = 0 /\
  Pcl.data (sample_blob xyz_fields 0) <> [] /\
  Pcl.loadPointCloud sample_files w = None.
Proof.
  cbv zeta. split; [reflexivity |]. split; [discriminate |].
  exact (proj2 (loadPointCloud_zero_point_step sample_files
                  (start (set_inputFile "stuck.ply" (Sample.object [] 1 1000 EmptyString)))
                  0 (sample_blob xyz_fields 0)
                  (Pcl.mkField "x" 0 Pcl.FLOAT32) (Pcl.mkField "y" 4 Pcl.FLOAT32)
                  (Pcl.mkField "z" 8 Pcl.FLOAT32)
                  eq_refl ltac:(discriminate) eq_refl
                  (or_introl eq_refl) eq_refl ltac:(discriminate))).
Defined.

(** X23.  [loadPointCloud] never ends the process, and the only exceptions it
    throws are the three above: the exception "Invalid datatype" of the loop
    over the points is never thrown, since the type of the field "x" has been
    checked before the loop. *)
Theorem loadPointCloud_throws_three_exceptions (files : Pcl.Files) (w : World) :
  match Pcl.loadPointCloud files w with
  | Some (_, Throw e) =>
    e = load_error (self w) \/ e = positions_missing \/ e = unsupported_type
  | Some (_, Exit _) => False
  | Some (_, Return _) => True
  | None => True
  end.
Proof.
  destruct (Pcl.loadPLYFile files (inputFile (self w))) as [code blob] eqn:Hload.
  destruct (Z.eq_dec code (-1)) as [-> | Hcode].
  - destruct w as [o p evs]. cbn [self] in *.
    unfold Pcl.loadPointCloud.
    rewrite open_cloud_unreadable by (rewrite Hload; reflexivity).
    left. reflexivity.
  - destruct w as [o p evs]. cbn [self] in *.
    unfold Pcl.loadPointCloud.
    rewrite (open_cloud_run files o p evs code blob Hload Hcode).
    destruct (last_named "x" (Pcl.fields blob) None) as [posX |];
      destruct (last_named "y" (Pcl.fields blob) None) as [posY |];
      destruct (last_named "z" (Pcl.fields blob) None) as [posZ |];
      try (right; left; reflexivity).
    destruct (negb (Pcl.datatype posX =? Pcl.FLOAT32) &&
              negb (Pcl.datatype posX =? Pcl.FLOAT64)) eqn:Hok;
      [right; right; reflexivity |].
    assert (Htype : Pcl.datatype posX = Pcl.FLOAT32 \/ Pcl.datatype posX = Pcl.FLOAT64).
    { apply andb_false_iff in Hok. destruct Hok as [H | H];
        apply negb_false_iff, Z.eqb_eq in H; [left | right]; exact H. }
    destruct (Pcl.point_offsets _ _ _ _) as [offsets |]; [| exact I].
    unfold bind at 1. rewrite (read_points_run files blob posX posY posZ _ Htype).
    cbv beta iota zeta delta [bind log log_int emit this self isPrintingInCout events].
    exact I.
Qed.

(** ** [run]: a complete run *)

(** X24.  When [parseArguments] and [loadPointCloud] return, [run] runs
    [buildMesh] on the object they leave, then prints the log to the log file
    of that object, and returns [EXIT_SUCCESS]; the printing of the log is the
    last thing it does, after the mesh is written. *)
Theorem run_meshes_once_loaded
        (vtk : Library) (env : Environment) (args : list string)
        (o : Odm25dMeshing) (w1 w2 : World) :
  args <> [] ->
  parseArguments env args
    (mkWorld o false [LogStr (logFilePath o); LogStr nl]) = (w1, Return tt) ->
  loadPointCloud env w1 = (w2, Return tt) ->
  run vtk env args (start o) =
  (mkWorld (self w2) (isPrintingInCout w2)
           (events w2 ++ trace (buildMesh vtk) (self w2)
              ++ [LogPrintToFile (logFilePath (self w2))]),
   Return EXIT_SUCCESS).
Proof.
  intros Hargs Hparse Hload.
  destruct args as [| a args']; [congruence |].
  unfold run, start. rewrite argc_above_one.
  cbv beta iota zeta delta [bind this log emit self isPrintingInCout events].
  cbn [app].
  unfold try_catch.
  cbv beta iota zeta delta [bind].
  rewrite Hparse, Hload, buildMesh_from.
  cbv beta iota zeta delta
    [ret this printToFile emit bind self isPrintingInCout events].
  rewrite <- app_assoc. reflexivity.
Qed.

Lemma run_meshes_once_loaded_sample :
  let o := Sample.object [] 1 1000 EmptyString in
  let args := ["-inputFile"; "cloud.ply"; "-verbose"]%string in
  let w1 := fst (parseArguments Sample.env args
                   (mkWorld o false [LogStr (logFilePath o); LogStr nl])) in
  let w2 := fst (loadPointCloud Sample.env w1) in
  args <> [] /\
  result (run Sample.vtk Sample.env args) o = Return EXIT_SUCCESS /\
  stage_events (trace (run Sample.vtk Sample.env args) o) =
  stage_events (trace (buildMesh Sample.vtk) (self w2)) ++ [LogPrintToFile "log.txt"].
Proof.
  cbv zeta.
  assert (Hargs : ["-inputFile"; "cloud.ply"; "-verbose"]%string <> []) by discriminate.
  pose proof (run_meshes_once_loaded Sample.vtk Sample.env
                ["-inputFile"; "cloud.ply"; "-verbose"]%string
                (Sample.object [] 1 1000 EmptyString) _ _ Hargs
                ltac:(vm_compute; reflexivity) ltac:(vm_compute; reflexivity)) as Hrun.
  split; [exact Hargs |]. split.
  - unfold result. rewrite Hrun. reflexivity.
  - unfold trace at 1. rewrite Hrun. vm_compute. reflexivity.
Defined.
